(** * ocflib: lab hours and printing quota

    A shallow embedding of [ocflib/lab/hours.py] and
    [ocflib/printing/quota.py], and the properties of the two modules.

    Python values are dynamically typed; the embedding keeps the few
    run-time types the two modules handle ([None], [date], [time],
    [datetime]) in one universe [value], and a call that Python answers with
    an exception returns [Raise e] here. *)

From Stdlib Require Import ZArith List String Ascii Bool Lia.
Import ListNotations.

Local Open Scope Z_scope.

(** ** Exceptions and the error monad *)

Inductive exn : Type :=
| ValueError
| TypeError
| KeyError
| IndexError
| AttributeError
| OverflowError.

Inductive result (A : Type) : Type :=
| Ok (a : A)
| Raise (e : exn).

Arguments Ok {A} a.
Arguments Raise {A} e.

Definition bind {A B : Type} (c : result A) (k : A -> result B) : result B :=
  match c with
  | Ok a => k a
  | Raise e => Raise e
  end.

Notation "x <- c ;; k" := (bind c (fun x => k))
  (at level 61, c at next level, right associativity).
Notation "' pat <- c ;; k" := (bind c (fun x => match x with pat => k end))
  (at level 61, pat pattern, c at next level, right associativity).

(** A list comprehension whose element expression may raise: elements are
    evaluated left to right and the first exception aborts the whole list. *)
Fixpoint mapM {A B : Type} (f : A -> result B) (l : list A) : result (list B) :=
  match l with
  | [] => Ok []
  | a :: l' => b <- f a ;; bs <- mapM f l' ;; Ok (b :: bs)
  end.

(** [[x for x in l if p(x)]] with a condition that may raise. *)
Fixpoint filterM {A : Type} (p : A -> result bool) (l : list A) : result (list A) :=
  match l with
  | [] => Ok []
  | a :: l' =>
      b <- p a ;; rest <- filterM p l' ;; Ok (if b then a :: rest else rest)
  end.

(** [any(p(x) for x in l)]: the generator is consumed up to the first true
    element, so later elements are not evaluated. *)
Fixpoint anyM {A : Type} (p : A -> result bool) (l : list A) : result bool :=
  match l with
  | [] => Ok false
  | a :: l' => b <- p a ;; if b then Ok true else anyM p l'
  end.

(** [l[i]] *)
Definition index {A : Type} (l : list A) (i : nat) : result A :=
  match nth_error l i with
  | Some a => Ok a
  | None => Raise IndexError
  end.

(** ** The part of Python's [datetime] module the code uses

    A [date] is its proleptic Gregorian ordinal ([date.toordinal()]):
    [date.min] is 1 (0001-01-01, a Monday) and [date.max] is 3652059
    (9999-12-31).  Comparison of dates is comparison of ordinals.  A [time]
    is the number of microseconds since midnight; a [timedelta] is a signed
    number of microseconds. *)
Module datetime.

Definition date : Type := Z.
Definition time : Type := Z.
Definition timedelta : Type := Z.

Record datetime : Type := mkdatetime { dt_date : date; dt_time : time }.

Definition MAXORDINAL : Z := 3652059.
Definition US_PER_DAY : Z := 86400000000.

(** [date.weekday()]: Monday is 0. *)
Definition weekday (d : date) : Z := (d + 6) mod 7.

(** [d + timedelta(days=1)]; leaving the calendar raises OverflowError. *)
Definition add_day (d : date) : result date :=
  if MAXORDINAL <? d + 1 then Raise OverflowError else Ok (d + 1).

(** [datetime.combine(d, t)] *)
Definition combine (d : date) (t : time) : datetime := mkdatetime d t.

(** [a > b] on two datetimes: dates first, then times of day. *)
Definition dt_gtb (a b : datetime) : bool :=
  (dt_date b <? dt_date a)
  || ((dt_date a =? dt_date b) && (dt_time b <? dt_time a)).

(** [a - b] on two datetimes *)
Definition dt_sub (a b : datetime) : timedelta :=
  (dt_date a - dt_date b) * US_PER_DAY + (dt_time a - dt_time b).

(** Calendar constructors, for readable examples: [ymd y m d] is
    [date(y, m, d).toordinal()] and [hm h m] is [time(h, m)]. *)
Definition is_leap (y : Z) : bool :=
  (y mod 4 =? 0) && (negb (y mod 100 =? 0) || (y mod 400 =? 0)).

Definition days_before_year (y : Z) : Z :=
  let y1 := y - 1 in y1 * 365 + y1 / 4 - y1 / 100 + y1 / 400.

Definition days_before_month (y m : Z) : Z :=
  nth (Z.to_nat m) [0; 0; 31; 59; 90; 120; 151; 181; 212; 243; 273; 304; 334] 0
  + (if (2 <? m) && is_leap y then 1 else 0).

Definition ymd (y m d : Z) : date :=
  days_before_year y + days_before_month y m + d.

Definition hm (h m : Z) : time := (h * 3600 + m * 60) * 1000000.

End datetime.

(** The run-time values that reach the code. *)
Inductive value : Type :=
| VNone
| VDate (d : datetime.date)
| VTime (t : datetime.time)
| VDatetime (dt : datetime.datetime).

(** Truth value of an object ([not v] is its negation): [None] is false;
    dates, times and datetimes are true. *)
Definition truthy (v : value) : bool :=
  match v with
  | VNone => false
  | _ => true
  end.

(** [isinstance(v, datetime)] *)
Definition is_datetime (v : value) : bool :=
  match v with
  | VDatetime _ => true
  | _ => false
  end.

(** ** [split] and the [{}] fields of [str.format] *)

(** [s.split(sep)] for a one-character separator. *)
Fixpoint split (sep : ascii) (s : string) : list string :=
  match s with
  | EmptyString => [EmptyString]
  | String a s' =>
      if Ascii.eqb a sep then EmptyString :: split sep s'
      else match split sep s' with
           | [] => [String a EmptyString]
           | w :: ws => String a w :: ws
           end
  end.

(** [sep.join(l)] *)
Fixpoint join (sep : string) (l : list string) : string :=
  match l with
  | [] => EmptyString
  | [a] => a
  | a :: l' => String.append a (String.append sep (join sep l'))
  end.

(** [q.format(a, b, ...)] for a template whose replacement fields are all the
    automatically numbered [{}]: each field takes the next argument, an
    exhausted argument list is an IndexError, and a brace outside a [{}] pair
    is rejected. *)
Fixpoint format (q : string) (args : list string) : result string :=
  match q with
  | EmptyString => Ok EmptyString
  | String "{" (String "}" q') =>
      match args with
      | [] => Raise IndexError
      | a :: args' => r <- format q' args' ;; Ok (String.append a r)
      end
  | String "{" _ => Raise ValueError
  | String "}" _ => Raise ValueError
  | String c q' => r <- format q' args ;; Ok (String c r)
  end.

(** ** ocflib/lab/hours.py *)
Module hours.

(** [class Days(Enum)] *)
Inductive Days : Type :=
| Monday | Tuesday | Wednesday | Thursday | Friday | Saturday | Sunday.

Definition Days_eqb (a b : Days) : bool :=
  match a, b with
  | Monday, Monday | Tuesday, Tuesday | Wednesday, Wednesday
  | Thursday, Thursday | Friday, Friday | Saturday, Saturday
  | Sunday, Sunday => true
  | _, _ => false
  end.

(** [Days(n)]: the member with value [n]. *)
Definition Days_of_value (n : Z) : result Days :=
  match n with
  | 0 => Ok Monday
  | 1 => Ok Tuesday
  | 2 => Ok Wednesday
  | 3 => Ok Thursday
  | 4 => Ok Friday
  | 5 => Ok Saturday
  | 6 => Ok Sunday
  | _ => Raise ValueError
  end.

Definition Days_name (d : Days) : string :=
  match d with
  | Monday => "Monday"
  | Tuesday => "Tuesday"
  | Wednesday => "Wednesday"
  | Thursday => "Thursday"
  | Friday => "Friday"
  | Saturday => "Saturday"
  | Sunday => "Sunday"
  end.

(** [Days[name]]: the member called [name]. *)
Definition Days_of_name (name : string) : result Days :=
  match find (fun d => String.eqb (Days_name d) name)
             [Monday; Tuesday; Wednesday; Thursday; Friday; Saturday; Sunday] with
  | Some d => Ok d
  | None => Raise KeyError
  end.

(** [d.strftime('%A')] *)
Definition strftime_A (d : datetime.date) : string :=
  match Days_of_value (datetime.weekday d) with
  | Ok wd => Days_name wd
  | Raise _ => EmptyString
  end.

(** [class Hour] *)
Record Hour : Type := mkHour { open : datetime.time; close : datetime.time }.

(** [Hour.__contains__]: a datetime is first replaced by its time of day;
    [self.open <= when < self.close] orders two times, and raises TypeError
    when [when] is [None] or a date. *)
Definition contains (self : Hour) (when : value) : result bool :=
  let when := if is_datetime when
              then match when with
                   | VDatetime dt => VTime (datetime.dt_time dt)
                   | v => v
                   end
              else when in
  match when with
  | VTime t => Ok ((open self <=? t) && (t <? close self))
  | _ => Raise TypeError
  end.

(** [class Hours(namedtuple('Hours', ['date', 'weekday', 'holiday', 'hours']))] *)
Record Hours : Type := mkHours {
  date : datetime.date;
  weekday : string;
  holiday : option string;
  hours : list Hour;
}.

(** The dictionary [regular_hours], keyed by [Days]. *)
Definition week : Type := Days -> option (list Hour).

Definition week_empty : week := fun _ => None.

Definition week_set (w : week) (d : Days) (hs : list Hour) : week :=
  fun d' => if Days_eqb d d' then Some hs else w d'.

(** [w[d]] *)
Definition week_get (w : week) (d : Days) : result (list Hour) :=
  match w d with
  | Some hs => Ok hs
  | None => Raise KeyError
  end.

(** One entry of [raw_hours['holidays']]; [rh_hours] is [None] for a YAML
    null. *)
Record raw_holiday : Type := mkRawHoliday {
  rh_start : datetime.date;
  rh_end : datetime.date;
  rh_reason : string;
  rh_hours : option (list string);
}.

(** [yaml.safe_load(HOURS_FILE)]: the items of [raw_hours['hours']] in file
    order, and the list [raw_hours['holidays']]. *)
Record raw_config : Type := mkRawConfig {
  raw_week : list (string * list string);
  raw_holidays : list raw_holiday;
}.

(** A parsed holiday: [(start, end, reason, i_hours)]. *)
Definition holiday_entry : Type := (datetime.date * datetime.date * string * list Hour)%type.

Section Schedule.

(** [datetime.strptime(t, '%H:%M').time()], the parsed content of
    hours.yaml, and the clock read by [datetime.now()] and
    [date.today()]. *)
Variable _parsetime : string -> result datetime.time.
Variable raw_hours : raw_config.
Variable now : datetime.datetime.

(** [Hour(open=_parsetime(x[0]), close=_parsetime(x[1]))] with
    [x = hour.split('-')] *)
Definition parse_hour (hour : string) : result Hour :=
  let x := split "-" hour in
  x0 <- index x 0 ;;
  o <- _parsetime x0 ;;
  x1 <- index x 1 ;;
  c <- _parsetime x1 ;;
  Ok (mkHour o c).

(** The first loop of [_generate_regular_hours]. *)
Fixpoint load_week (items : list (string * list string)) (regular_hours : week)
  : result week :=
  match items with
  | [] => Ok regular_hours
  | (day, hs) :: items' =>
      i_hours <- mapM parse_hour hs ;;
      d <- Days_of_name day ;;
      load_week items' (week_set regular_hours d i_hours)
  end.

(** The body of the second loop. *)
Definition load_holiday (data : raw_holiday) : result holiday_entry :=
  i_hours <- match rh_hours data with
             | Some (h :: hs) => mapM parse_hour (h :: hs)
             | _ => Ok []
             end ;;
  Ok (rh_start data, rh_end data, rh_reason data, i_hours).

Definition _generate_regular_hours : result (week * list holiday_entry) :=
  regular_hours <- load_week (raw_week raw_hours) week_empty ;;
  holidays <- mapM load_holiday (raw_holidays raw_hours) ;;
  Ok (regular_hours, holidays).

(** The [for ... break] loop of [get_hours]. *)
Fixpoint scan_holidays (holidays : list holiday_entry) (day : datetime.date)
    (my_holiday : option string) (my_hours : list Hour)
  : option string * list Hour :=
  match holidays with
  | [] => (my_holiday, my_hours)
  | (start, end_, name, hs) :: holidays' =>
      if (start <=? day) && (day <=? end_) then (Some name, hs)
      else scan_holidays holidays' day my_holiday my_hours
  end.

Definition get_hours (day : value) : result Hours :=
  let day := if negb (truthy day) then VDate (datetime.dt_date now) else day in
  let day := if is_datetime day
             then match day with
                  | VDatetime dt => VDate (datetime.dt_date dt)
                  | v => v
                  end
             else day in
  '(hs, holidays) <- _generate_regular_hours ;;
  match day with
  | VDate day =>
      wd <- Days_of_value (datetime.weekday day) ;;
      my_hours <- week_get hs wd ;;
      let '(my_holiday, my_hours) := scan_holidays holidays day None my_hours in
      Ok (mkHours day (strftime_A day) my_holiday my_hours)
  | _ => Raise AttributeError
  end.

Definition today : result Hours := get_hours VNone.

Definition _validate_time (self : Hours) (when : value) : result value :=
  if negb (truthy when) then Ok (VDatetime now)
  else match when with
       | VDatetime dt =>
           if negb (negb (date self =? datetime.dt_date dt)) then Raise ValueError
           else Ok VNone
       | _ => Raise ValueError
       end.

Definition lab_is_open (self : Hours) (when : value) : result bool :=
  when <- _validate_time self when ;;
  anyM (fun hour => contains hour when) (hours self).

(** [o > when] and [o - when] for a datetime [o]: both need a datetime
    on the right. *)
Definition gt_value (o : datetime.datetime) (when : value) : result bool :=
  match when with
  | VDatetime w => Ok (datetime.dt_gtb o w)
  | _ => Raise TypeError
  end.

Definition sub_value (o : datetime.datetime) (when : value) : result datetime.timedelta :=
  match when with
  | VDatetime w => Ok (datetime.dt_sub o w)
  | _ => Raise TypeError
  end.

(** The local function [date_opens] of [time_to_open]. *)
Definition date_opens (d : datetime.date) : result (list datetime.datetime) :=
  h <- get_hours (VDate d) ;;
  Ok (map (fun h => datetime.combine d (open h)) (hours h)).

(** The loop [while not opens: date += timedelta(days=1); opens =
    date_opens(date)].  [None] means that [fuel] iterations were not
    enough. *)
Fixpoint next_opens (fuel : nat) (d : datetime.date) (opens : list datetime.datetime)
  : option (result (list datetime.datetime)) :=
  match opens with
  | _ :: _ => Some (Ok opens)
  | [] =>
      match fuel with
      | O => None
      | S fuel' =>
          match datetime.add_day d with
          | Raise e => Some (Raise e)
          | Ok d' =>
              match date_opens d' with
              | Raise e => Some (Raise e)
              | Ok opens' => next_opens fuel' d' opens'
              end
          end
      end
  end.

Definition time_to_open_fuel (fuel : nat) (self : Hours) (when : value)
  : option (result datetime.timedelta) :=
  match _validate_time self when with
  | Raise e => Some (Raise e)
  | Ok when =>
      match lab_is_open self when with
      | Raise e => Some (Raise e)
      | Ok true => Some (Ok 0)
      | Ok false =>
          match (opens <- date_opens (date self) ;;
                 filterM (fun o => gt_value o when) opens) with
          | Raise e => Some (Raise e)
          | Ok opens =>
              match next_opens fuel (date self) opens with
              | None => None
              | Some (Raise e) => Some (Raise e)
              | Some (Ok opens) =>
                  Some (o <- index opens 0 ;; sub_value o when)
              end
          end
      end
  end.

(** The loop leaves the calendar after at most this many iterations. *)
Definition calendar_fuel (d : datetime.date) : nat := S (Z.to_nat (datetime.MAXORDINAL - d)).

Definition time_to_open (self : Hours) (when : value) : option (result datetime.timedelta) :=
  time_to_open_fuel (calendar_fuel (date self)) self when.

Definition time_to_close (self : Hours) (when : value) : result datetime.timedelta :=
  when <- _validate_time self when ;;
  hs <- filterM (fun hour => contains hour when) (hours self) ;;
  match hs with
  | [] => Ok 0
  | hour :: _ => sub_value (datetime.combine (date self) (close hour)) when
  end.

Definition closed_all_day (self : Hours) : bool :=
  match hours self with
  | [] => true
  | _ :: _ => false
  end.

End Schedule.

End hours.

(** ** ocflib/printing/quota.py *)
Module quota.

Definition WEEKDAY_QUOTA : Z := 8.
Definition WEEKEND_QUOTA : Z := 16.
Definition SEMESTERLY_QUOTA : Z := 100.

Record UserQuota : Type := mkUserQuota {
  user : string;
  daily : Z;
  semesterly : Z;
}.

(** Values handed to the database driver as statement parameters. *)
Inductive sqlval : Type :=
| SNull
| SStr (s : string)
| SInt (n : Z)
| SDatetime (dt : datetime.datetime).

(** A [collections.namedtuple] instance: the class's [_fields] and the
    instance's items, in declaration order. *)
Record namedtuple : Type := mkNamedtuple {
  _fields : list string;
  _items : list sqlval;
}.

Fixpoint lookup (fields : list string) (items : list sqlval) (column : string)
  : option sqlval :=
  match fields, items with
  | f :: fields', v :: items' =>
      if String.eqb f column then Some v else lookup fields' items' column
  | _, _ => None
  end.

(** [getattr(nt, column)] *)
Definition getattr (nt : namedtuple) (column : string) : result sqlval :=
  match lookup (_fields nt) (_items nt) column with
  | Some v => Ok v
  | None => Raise AttributeError
  end.

Definition Job (user time pages queue printer doc_name filesize : sqlval)
  : namedtuple :=
  mkNamedtuple
    ["user"; "time"; "pages"; "queue"; "printer"; "doc_name"; "filesize"]%string
    [user; time; pages; queue; printer; doc_name; filesize].

Definition Refund (user time pages staffer reason : sqlval) : namedtuple :=
  mkNamedtuple
    ["user"; "time"; "pages"; "staffer"; "reason"]%string
    [user; time; pages; staffer; reason].

(** A row of the [printed] view as the dictionary cursor returns it, after
    [int(...)] of its two columns. *)
Record row : Type := mkRow { today : Z; semester : Z }.

(** The database cursor [c]: [execute] sends one statement with its
    parameters, [fetchone] takes the next row of the last result, if any. *)
Class Cursor (C : Type) : Type := {
  execute : string -> list sqlval -> C -> C;
  fetchone : C -> option row * C;
}.

(** [daily_quota(day)]; [None] stands for a call without argument. *)
Definition daily_quota (now : datetime.datetime) (day : option datetime.date) : Z :=
  let day := match day with
             | None => datetime.dt_date now
             | Some d => d
             end in
  if existsb (Z.eqb (datetime.weekday day)) [5; 6] then WEEKEND_QUOTA
  else WEEKDAY_QUOTA.

Section Quota.

Context {C : Type} `{Cursor C}.
Variable now : datetime.datetime.

Definition get_quota (c : C) (user : string) : UserQuota * C :=
  if String.eqb user "pubstaff" then (mkUserQuota "pubstaff" 500 500, c)
  else
    let c := execute "SELECT `today`, `semester` FROM `printed` WHERE `user` = %s"
                     [SStr user] c in
    let '(row, c) := fetchone c in
    let row := match row with
               | Some r => r
               | None => mkRow 0 0
               end in
    let semesterly := Z.max 0 (SEMESTERLY_QUOTA - semester row) in
    (mkUserQuota user
       (Z.max 0 (Z.min semesterly (daily_quota now None - today row)))
       semesterly,
     c).

Definition _namedtuple_to_query (query : string) (nt : namedtuple)
  : result (string * list sqlval) :=
  columns <- mapM (fun column => format "`{}`" [column]) (_fields nt) ;;
  q <- format query [join ", " columns;
                     join ", " (map (fun _ => "%s"%string) (_fields nt))] ;;
  args <- mapM (getattr nt) (_fields nt) ;;
  Ok (q, args).

Definition add_job (c : C) (job : namedtuple) : result C :=
  '(q, args) <- _namedtuple_to_query "INSERT INTO jobs ({}) VALUES ({})" job ;;
  Ok (execute q args c).

Definition add_refund (c : C) (refund : namedtuple) : result C :=
  '(q, args) <- _namedtuple_to_query "INSERT INTO refunds ({}) VALUES ({})" refund ;;
  Ok (execute q args c).

End Quota.

(** A cursor over an in-memory [printed] view that records every statement
    it is given; the examples run on it. *)
Record table_cursor : Type := mkTableCursor {
  printed : list (string * row);
  executed : list (string * list sqlval);
  pending : option row;
}.

Definition table_select (t : list (string * row)) (args : list sqlval) : option row :=
  match args with
  | [SStr u] =>
      match find (fun r => String.eqb (fst r) u) t with
      | Some r => Some (snd r)
      | None => None
      end
  | _ => None
  end.

#[global] Instance table_cursor_Cursor : Cursor table_cursor := {
  execute q args c :=
    mkTableCursor (printed c) (executed c ++ [(q, args)])
      (if String.prefix "SELECT" q then table_select (printed c) args else None);
  fetchone c := (pending c, mkTableCursor (printed c) (executed c) None);
}.

(** Keyword arguments: a dictionary from names to values, in insertion
    order. *)
Inductive kwval : Type :=
| KNone
| KStr (s : string)
| KBool (b : bool)
| KInt (n : Z)
| KDictCursor.

Definition kwargs : Type := list (string * kwval).

(** [k in kw] *)
Definition kw_mem (k : string) (kw : kwargs) : bool :=
  existsb (fun e => String.eqb (fst e) k) kw.

(** [kw.setdefault(k, v)] *)
Definition setdefault (k : string) (v : kwval) (kw : kwargs) : kwargs :=
  if kw_mem k kw then kw else kw ++ [(k, v)].

Section Connection.

(** [pymysql.connect]: the driver, whatever it answers for the keyword
    arguments it is given. *)
Variable conn : Type.
Variable connect : kwargs -> conn.

(** [get_connection(user, password, db, **kwargs)]; an argument left out
    ([None] here) takes its default.  A name given both explicitly and in
    [**kwargs] makes the call itself a TypeError. *)
Definition get_connection (user password db : option kwval) (kw : kwargs)
  : result conn :=
  let user := match user with Some v => v | None => KStr "anonymous" end in
  let password := match password with Some v => v | None => KNone end in
  let db := match db with Some v => v | None => KStr "ocfprinting" end in
  let kw := if negb (kw_mem "unix_socket" kw)
            then setdefault "host" (KStr "mysql.ocf.berkeley.edu") kw
            else kw in
  let named := [("user", user); ("password", password); ("db", db);
                ("cursorclass", KDictCursor); ("autocommit", KBool true);
                ("charset", KStr "utf8mb4")]%string in
  if existsb (fun e => kw_mem (fst e) kw) named then Raise TypeError
  else Ok (connect (named ++ kw)).

End Connection.

End quota.


(** ** Concrete schedules and instants *)
Module examples.

Definition digit (c : ascii) : option Z :=
  let n := Z.of_nat (nat_of_ascii c) - 48 in
  if (0 <=? n) && (n <=? 9) then Some n else None.

(** [datetime.strptime(t, '%H:%M').time()] on the zero-padded form [HH:MM]
    in which hours.yaml writes its times; anything else is refused here. *)
Definition strptime_HM (t : string) : result datetime.time :=
  match t with
  | String h1 (String h2 (String ":" (String m1 (String m2 EmptyString)))) =>
      match digit h1, digit h2, digit m1, digit m2 with
      | Some a, Some b, Some c, Some d =>
          let h := 10 * a + b in
          let m := 10 * c + d in
          if (h <=? 23) && (m <=? 59) then Ok (datetime.hm h m)
          else Raise ValueError
      | _, _, _, _ => Raise ValueError
      end
  | _ => Raise ValueError
  end.

Definition all_days : list string :=
  ["Monday"; "Tuesday"; "Wednesday"; "Thursday"; "Friday"; "Saturday"; "Sunday"]%string.

(** Open 09:00-21:00 every day, closed on Christmas 2015 (a Friday). *)
Definition cfg_daily : hours.raw_config :=
  hours.mkRawConfig
    (map (fun day => (day, ["09:00-21:00"%string])) all_days)
    [hours.mkRawHoliday (datetime.ymd 2015 12 25) (datetime.ymd 2015 12 25)
       "Christmas" None].

(** Open 09:00-21:00 from Monday to Friday, closed at weekends. *)
Definition cfg_workdays : hours.raw_config :=
  hours.mkRawConfig
    (map (fun day => (day, ["09:00-21:00"%string])) (firstn 5 all_days)
     ++ map (fun day => (day, [])) (skipn 5 all_days))
    [].

(** All seven weekdays present, none with any interval. *)
Definition cfg_closed : hours.raw_config :=
  hours.mkRawConfig (map (fun day => (day, [])) all_days) [].

(** A template without an entry for Sunday. *)
Definition cfg_no_sunday : hours.raw_config :=
  hours.mkRawConfig
    (map (fun day => (day, ["09:00-21:00"%string])) (firstn 6 all_days)) [].

Definition monday : datetime.date := datetime.ymd 2015 10 12.

Definition at_ (d : datetime.date) (h m : Z) : datetime.datetime :=
  datetime.mkdatetime d (datetime.hm h m).

(** [Hours.get_hours(date(2015, 10, 12))] under [cfg_daily]. *)
Definition monday_hours : hours.Hours :=
  hours.mkHours monday "Monday" None
    [hours.mkHour (datetime.hm 9 0) (datetime.hm 21 0)].


(** A Monday without intervals. *)
Definition closed_hours : hours.Hours :=
  hours.mkHours monday "Monday" None [].

Definition printed_ckuehl : quota.table_cursor :=
  quota.mkTableCursor [("ckuehl"%string, quota.mkRow 3 98)] [] None.

End examples.

(** ** Reference predicates used in the statements *)

(** The half-open test [open <= t < close]. *)
Definition in_hour (t : datetime.time) (hour : hours.Hour) : bool :=
  (hours.open hour <=? t) && (t <? hours.close hour).

(** [start <= d <= end] for a parsed holiday. *)
Definition covers (d : datetime.date) (h : hours.holiday_entry) : bool :=
  let '(start, end_, _, _) := h in (start <=? d) && (d <=? end_).

(** The call returned a value. *)
Definition is_ok {A : Type} (r : result A) : bool :=
  match r with
  | Ok _ => true
  | Raise _ => false
  end.

(** The dates, label and order of a holiday list, parsed or not. *)
Definition holiday_ranges (l : list hours.holiday_entry)
  : list (datetime.date * datetime.date * string) :=
  map (fun h => let '(start, end_, name, _) := h in (start, end_, name)) l.

Definition raw_holiday_ranges (l : list hours.raw_holiday)
  : list (datetime.date * datetime.date * string) :=
  map (fun r => (hours.rh_start r, hours.rh_end r, hours.rh_reason r)) l.

(** No character of [s] is [c]. *)
Fixpoint no_char (c : ascii) (s : string) : bool :=
  match s with
  | EmptyString => true
  | String a s' => negb (Ascii.eqb a c) && no_char c s'
  end.

(** [s] has no brace. *)
Definition no_brace (s : string) : bool := no_char "{" s && no_char "}" s.

(** The item of the weekly template that names the weekday [wd]. *)
Definition names_day (wd : hours.Days) (item : string * list string) : bool :=
  match hours.Days_of_name (fst item) with
  | Ok d => hours.Days_eqb d wd
  | Raise _ => false
  end.

(** The row [get_quota] works on: the fetched one, or zeros. *)
Definition row_or_zero (r : option quota.row) : quota.row :=
  match r with
  | Some r => r
  | None => quota.mkRow 0 0
  end.

(** * Properties *)

Example ymd_monday : examples.monday = 735883 /\ datetime.weekday examples.monday = 0.
Proof. split; reflexivity. Qed.

Example ymd_max : datetime.ymd 9999 12 31 = datetime.MAXORDINAL.
Proof. reflexivity. Qed.

Example get_hours_monday :
  hours.get_hours examples.strptime_HM examples.cfg_daily
    (examples.at_ examples.monday 10 0) (VDate examples.monday)
  = Ok examples.monday_hours.
Proof. reflexivity. Qed.

Example split_interval : split "-" "09:00-21:00" = ["09:00"; "21:00"]%string.
Proof. reflexivity. Qed.

(** ** Validation of [when] *)
Section Validation.

Variable _parsetime : string -> result datetime.time.
Variable raw_hours : hours.raw_config.
Variable now : datetime.datetime.

Local Abbreviation lab_is_open := (hours.lab_is_open now).
Local Abbreviation time_to_close := (hours.time_to_close now).
Local Abbreviation time_to_open := (hours.time_to_open _parsetime raw_hours now).
Local Abbreviation time_to_open_fuel := (hours.time_to_open_fuel _parsetime raw_hours now).
Local Abbreviation _validate_time := (hours._validate_time now).

Lemma validate_same_date (self : hours.Hours) (dt : datetime.datetime) :
  datetime.dt_date dt = hours.date self ->
  _validate_time self (VDatetime dt) = Raise ValueError.
Proof.
  intros E. unfold hours._validate_time. cbn [truthy negb].
  rewrite E, Z.eqb_refl. reflexivity.
Qed.

Lemma validate_other_date (self : hours.Hours) (dt : datetime.datetime) :
  datetime.dt_date dt <> hours.date self ->
  _validate_time self (VDatetime dt) = Ok VNone.
Proof.
  intros N. unfold hours._validate_time. cbn [truthy negb].
  destruct (Z.eqb_spec (hours.date self) (datetime.dt_date dt)) as [E | _].
  - congruence.
  - reflexivity.
Qed.

Lemma validate_datetime_inv (self : hours.Hours) (dt : datetime.datetime) (v : value) :
  _validate_time self (VDatetime dt) = Ok v ->
  v = VNone /\ datetime.dt_date dt <> hours.date self.
Proof.
  unfold hours._validate_time. cbn [truthy negb].
  destruct (Z.eqb_spec (hours.date self) (datetime.dt_date dt)) as [E | N];
    cbn [negb]; intros Hv.
  - discriminate.
  - split; [congruence | auto].
Qed.

Lemma contains_None (hour : hours.Hour) : hours.contains hour VNone = Raise TypeError.
Proof. reflexivity. Qed.

Lemma anyM_None (hs : list hours.Hour) :
  hs <> [] -> anyM (fun hour => hours.contains hour VNone) hs = Raise TypeError.
Proof. destruct hs as [| h hs]; [congruence | reflexivity]. Qed.

Lemma filterM_None (hs : list hours.Hour) :
  hs <> [] -> filterM (fun hour => hours.contains hour VNone) hs = Raise TypeError.
Proof. destruct hs as [| h hs]; [congruence | reflexivity]. Qed.

(** C3. A datetime [when] that [_validate_time] does not reject makes it
    return [None]: the three methods then run on [None] and their results
    do not depend on the instant supplied; with a non-empty interval list
    the membership test of [lab_is_open] and [time_to_close] compares a time
    with [None] and raises TypeError.  A call without [when] gets
    [datetime.now()], and no other call gets a datetime out of
    [_validate_time]. *)
Theorem C3_validated_when_is_None
    (self : hours.Hours) (dt : datetime.datetime) (v : value) :
  _validate_time self (VDatetime dt) = Ok v ->
  v = VNone
  /\ lab_is_open self (VDatetime dt)
     = anyM (fun hour => hours.contains hour VNone) (hours.hours self)
  /\ (forall dt' v', _validate_time self (VDatetime dt') = Ok v' ->
        lab_is_open self (VDatetime dt') = lab_is_open self (VDatetime dt)
        /\ time_to_open self (VDatetime dt') = time_to_open self (VDatetime dt)
        /\ time_to_close self (VDatetime dt') = time_to_close self (VDatetime dt))
  /\ (forall hour, hours.contains hour VNone = Raise TypeError)
  /\ (hours.hours self <> [] ->
        lab_is_open self (VDatetime dt) = Raise TypeError
        /\ time_to_close self (VDatetime dt) = Raise TypeError)
  /\ _validate_time self VNone = Ok (VDatetime now)
  /\ (forall w x, _validate_time self w = Ok (VDatetime x) -> w = VNone /\ x = now).
Proof.
  intros Hv. destruct (validate_datetime_inv _ _ _ Hv) as [-> Hd].
  assert (L : forall d, _validate_time self (VDatetime d) = Ok VNone ->
                lab_is_open self (VDatetime d)
                = anyM (fun hour => hours.contains hour VNone) (hours.hours self)).
  { intros d Hd'. unfold hours.lab_is_open. rewrite Hd'. reflexivity. }
  split; [reflexivity |].
  split; [apply L, Hv |].
  split.
  { intros dt' v' Hv'. destruct (validate_datetime_inv _ _ _ Hv') as [-> _].
    split; [| split].
    - rewrite (L dt' Hv'), (L dt Hv). reflexivity.
    - unfold hours.time_to_open, hours.time_to_open_fuel. rewrite Hv', Hv. reflexivity.
    - unfold hours.time_to_close. rewrite Hv', Hv. reflexivity. }
  split; [apply contains_None |].
  split; [| split; [reflexivity |]].
  - intros Hne. split.
    + rewrite (L dt Hv). apply anyM_None, Hne.
    + unfold hours.time_to_close. rewrite Hv. cbn [bind].
      rewrite (filterM_None _ Hne). reflexivity.
  - intros w x Hw. destruct w as [| d | t | dt0].
    + cbn in Hw. injection Hw as <-. split; reflexivity.
    + discriminate Hw.
    + discriminate Hw.
    + destruct (validate_datetime_inv _ _ _ Hw) as [E _]. discriminate E.
Qed.

End Validation.

Lemma C3_validated_when_is_None_witness :
  hours._validate_time (examples.at_ examples.monday 10 0) examples.monday_hours
    (VDatetime (examples.at_ (examples.monday + 1) 10 0)) = Ok VNone
  /\ hours.lab_is_open (examples.at_ examples.monday 10 0) examples.monday_hours
       (VDatetime (examples.at_ (examples.monday + 1) 10 0)) = Raise TypeError.
Proof.
  assert (H : hours._validate_time (examples.at_ examples.monday 10 0)
                examples.monday_hours
                (VDatetime (examples.at_ (examples.monday + 1) 10 0)) = Ok VNone)
    by reflexivity.
  split; [exact H |].
  destruct (C3_validated_when_is_None examples.strptime_HM examples.cfg_daily
              _ _ _ _ H) as (_ & _ & _ & _ & T & _ & _).
  apply T. discriminate.
Defined.

(** C1. On Monday 2015-10-12 (open 09:00-21:00), a [when] on that very date
    is answered with ValueError by all three methods, and a [when] on the
    next day is not rejected: [_validate_time] returns [None], after which
    [lab_is_open] and [time_to_close] raise TypeError and [time_to_open],
    the lab being open at the current instant, returns zero. *)
Theorem C1_validate_time_rejects_same_date :
  let self := examples.monday_hours in
  let now := examples.at_ examples.monday 10 0 in
  let same := VDatetime (examples.at_ examples.monday 10 0) in
  let other := VDatetime (examples.at_ (examples.monday + 1) 10 0) in
  hours.lab_is_open now self same = Raise ValueError
  /\ hours.time_to_open examples.strptime_HM examples.cfg_daily now self same
     = Some (Raise ValueError)
  /\ hours.time_to_close now self same = Raise ValueError
  /\ hours._validate_time now self other = Ok VNone
  /\ hours.lab_is_open now self other = Raise TypeError
  /\ hours.time_to_open examples.strptime_HM examples.cfg_daily now self other
     = Some (Ok 0)
  /\ hours.time_to_close now self other = Raise TypeError.
Proof. repeat split; reflexivity. Qed.

(** C8. On Monday 2015-10-12 (open 09:00-21:00) at 10:00, an instant of that
    date inside the interval: with [when] given, neither [lab_is_open] nor
    [time_to_open] returns, both raise ValueError; with [when] left out and
    the clock at that instant, [lab_is_open] is true and [time_to_open]
    raises ValueError instead of returning zero. *)
Theorem C8_time_to_open_raises_when_open :
  let self := examples.monday_hours in
  let now := examples.at_ examples.monday 10 0 in
  hours.lab_is_open now self (VDatetime now) = Raise ValueError
  /\ hours.time_to_open examples.strptime_HM examples.cfg_daily now self (VDatetime now)
     = Some (Raise ValueError)
  /\ hours.lab_is_open now self VNone = Ok true
  /\ hours.time_to_open examples.strptime_HM examples.cfg_daily now self VNone
     = Some (Raise ValueError).
Proof. repeat split; reflexivity. Qed.

(** ** Interval membership *)

Lemma contains_datetime (hour : hours.Hour) (dt : datetime.datetime) :
  hours.contains hour (VDatetime dt) = Ok (in_hour (datetime.dt_time dt) hour).
Proof. reflexivity. Qed.

Lemma anyM_contains (dt : datetime.datetime) (hs : list hours.Hour) :
  anyM (fun hour => hours.contains hour (VDatetime dt)) hs
  = Ok (existsb (in_hour (datetime.dt_time dt)) hs).
Proof.
  induction hs as [| h hs IH]; [reflexivity |].
  cbn [anyM existsb]. rewrite contains_datetime. cbn [bind].
  destruct (in_hour (datetime.dt_time dt) h); [reflexivity | exact IH].
Qed.

Lemma lab_is_open_now (now : datetime.datetime) (self : hours.Hours) :
  hours.lab_is_open now self VNone
  = Ok (existsb (in_hour (datetime.dt_time now)) (hours.hours self)).
Proof. unfold hours.lab_is_open. cbn. apply anyM_contains. Qed.




(** ** The search for the next opening *)
Section Search.

Variable _parsetime : string -> result datetime.time.
Variable raw_hours : hours.raw_config.
Variable now : datetime.datetime.

Local Abbreviation date_opens := (hours.date_opens _parsetime raw_hours now).
Local Abbreviation next_opens := (hours.next_opens _parsetime raw_hours now).

Lemma add_day_ok (d : datetime.date) :
  d + 1 <= datetime.MAXORDINAL -> datetime.add_day d = Ok (d + 1).
Proof.
  intros H. unfold datetime.add_day.
  destruct (Z.ltb_spec datetime.MAXORDINAL (d + 1)); [lia | reflexivity].
Qed.

Lemma add_day_overflow (d : datetime.date) :
  datetime.MAXORDINAL <= d -> datetime.add_day d = Raise OverflowError.
Proof.
  intros H. unfold datetime.add_day.
  destruct (Z.ltb_spec datetime.MAXORDINAL (d + 1)); [reflexivity | lia].
Qed.

Lemma next_opens_nonempty (fuel : nat) (d : datetime.date) (os : list datetime.datetime) :
  os <> [] -> next_opens fuel d os = Some (Ok os).
Proof. destruct os; [congruence | destruct fuel; reflexivity]. Qed.

(** [k] dates in a row without an opening cost [k] iterations. *)
Lemma next_opens_skip (k : nat) :
  forall (d : datetime.date) (fuel : nat),
    (forall i, 1 <= i <= Z.of_nat k -> date_opens (d + i) = Ok []) ->
    d + Z.of_nat k <= datetime.MAXORDINAL ->
    next_opens (k + fuel) d [] = next_opens fuel (d + Z.of_nat k) [].
Proof.
  induction k as [| k IH]; intros d fuel Hclosed Hmax.
  - cbn [Nat.add Z.of_nat]. now rewrite Z.add_0_r.
  - cbn [Nat.add hours.next_opens].
    rewrite add_day_ok by lia.
    rewrite (Hclosed 1) by lia.
    rewrite IH.
    + f_equal. lia.
    + intros i Hi. replace (d + 1 + i) with (d + (1 + i)) by lia.
      apply Hclosed. lia.
    + lia.
Qed.

Lemma next_opens_out_of_fuel (k : nat) (d : datetime.date) :
  (forall i, 1 <= i <= Z.of_nat k -> date_opens (d + i) = Ok []) ->
  d + Z.of_nat k <= datetime.MAXORDINAL ->
  next_opens k d [] = None.
Proof.
  intros Hclosed Hmax.
  rewrite <- (Nat.add_0_r k) at 1.
  rewrite next_opens_skip by assumption. reflexivity.
Qed.

Lemma next_opens_found (k fuel : nat) (d : datetime.date) (os : list datetime.datetime) :
  (forall i, 1 <= i <= Z.of_nat k -> date_opens (d + i) = Ok []) ->
  d + Z.of_nat k + 1 <= datetime.MAXORDINAL ->
  date_opens (d + Z.of_nat k + 1) = Ok os ->
  os <> [] ->
  (k < fuel)%nat ->
  next_opens fuel d [] = Some (Ok os).
Proof.
  intros Hclosed Hmax Hos Hne Hfuel.
  replace fuel with (k + S (fuel - S k))%nat by lia.
  rewrite next_opens_skip by (assumption || lia).
  cbn [hours.next_opens].
  rewrite add_day_ok by lia. rewrite Hos.
  apply next_opens_nonempty, Hne.
Qed.

Lemma next_opens_overflow (k fuel : nat) (d : datetime.date) :
  (forall i, 1 <= i <= Z.of_nat k -> date_opens (d + i) = Ok []) ->
  d + Z.of_nat k = datetime.MAXORDINAL ->
  (k < fuel)%nat ->
  next_opens fuel d [] = Some (Raise OverflowError).
Proof.
  intros Hclosed Hmax Hfuel.
  replace fuel with (k + S (fuel - S k))%nat by lia.
  rewrite next_opens_skip by (assumption || lia).
  cbn [hours.next_opens].
  rewrite add_day_overflow by lia. reflexivity.
Qed.

(** The loop always ends within the calendar. *)
Lemma next_opens_total (fuel : nat) :
  forall (d : datetime.date) (os : list datetime.datetime),
    (Z.to_nat (datetime.MAXORDINAL - d) < fuel)%nat ->
    exists r, next_opens fuel d os = Some r.
Proof.
  induction fuel as [| fuel IH]; intros d os Hfuel; [lia |].
  destruct os as [| o os]; [| eexists; reflexivity].
  cbn [hours.next_opens]. unfold datetime.add_day.
  destruct (Z.ltb_spec datetime.MAXORDINAL (d + 1)) as [Hov | Hin].
  - eexists; reflexivity.
  - destruct (date_opens (d + 1)) as [os' | e]; [| eexists; reflexivity].
    apply IH. lia.
Qed.

Lemma time_to_open_total (self : hours.Hours) (when : value) :
  exists r, hours.time_to_open _parsetime raw_hours now self when = Some r.
Proof.
  unfold hours.time_to_open, hours.time_to_open_fuel.
  destruct (hours._validate_time now self when) as [w | e]; [| eexists; reflexivity].
  destruct (hours.lab_is_open now self w) as [[|] | e]; try (eexists; reflexivity).
  destruct (bind _ _) as [os | e]; [| eexists; reflexivity].
  destruct (next_opens_total (hours.calendar_fuel (hours.date self))
              (hours.date self) os) as [r Hr].
  { unfold hours.calendar_fuel. lia. }
  rewrite Hr. destruct r; eexists; reflexivity.
Qed.

Lemma filterM_gt_datetime (w : datetime.datetime) (os : list datetime.datetime) :
  filterM (fun o => hours.gt_value o (VDatetime w)) os
  = Ok (filter (fun o => datetime.dt_gtb o w) os).
Proof.
  induction os as [| o os IH]; [reflexivity |].
  cbn [filterM filter].
  change (hours.gt_value o (VDatetime w)) with (Ok (datetime.dt_gtb o w)).
  cbn [bind]. rewrite IH. reflexivity.
Qed.

(** [time_to_open] without [when], once its own [lab_is_open] check has
    answered False: the openings of the Hours' date that are later than
    now are handed to the search, and the first instant of what the search
    returns, minus now, is the result. *)
Lemma time_to_open_fuel_closed_now (fuel : nat) (self : hours.Hours)
    (today_opens : list datetime.datetime) :
  hours.lab_is_open now self (VDatetime now) = Ok false ->
  date_opens (hours.date self) = Ok today_opens ->
  hours.time_to_open_fuel _parsetime raw_hours now fuel self VNone
  = match next_opens fuel (hours.date self)
            (filter (fun o => datetime.dt_gtb o now) today_opens) with
    | None => None
    | Some (Raise e) => Some (Raise e)
    | Some (Ok opens) =>
        Some (o <- index opens 0 ;; hours.sub_value o (VDatetime now))
    end.
Proof.
  intros Hlab Hopens. unfold hours.time_to_open_fuel.
  cbn [hours._validate_time truthy negb]. rewrite Hlab, Hopens.
  cbn [bind]. rewrite filterM_gt_datetime. reflexivity.
Qed.

(** C2, as amended. [time_to_open] has no maximum lookahead and no error
    of its own.  Its search loop, over [k] successive dates without an
    interval, is still running after [k] iterations, whatever [k]; it stops
    at the first later date that has an interval, with that date's
    openings; and when the dates without interval reach [date.max] it ends
    with the OverflowError of the date increment.  For a call without
    [when] whose own [lab_is_open] check answers False: if the Hours' date
    has openings later than now, the result is the first of them minus
    now; if it has none, the call is still searching after [k] iterations,
    its result is the first opening of the first later date that has an
    interval, minus now, and it is that OverflowError when no date up to
    [date.max] has one. *)
Theorem C2_search_is_not_bounded (k : nat) (d : datetime.date) :
  (forall i, 1 <= i <= Z.of_nat k -> date_opens (d + i) = Ok []) ->
  d + Z.of_nat k <= datetime.MAXORDINAL ->
  next_opens k d [] = None
  /\ (forall os fuel,
        date_opens (d + Z.of_nat k + 1) = Ok os -> os <> [] ->
        d + Z.of_nat k + 1 <= datetime.MAXORDINAL -> (k < fuel)%nat ->
        next_opens fuel d [] = Some (Ok os))
  /\ (forall fuel,
        d + Z.of_nat k = datetime.MAXORDINAL -> (k < fuel)%nat ->
        next_opens fuel d [] = Some (Raise OverflowError))
  /\ (k < hours.calendar_fuel d)%nat
  /\ (forall (self : hours.Hours) (today_opens : list datetime.datetime),
        hours.date self = d ->
        hours.lab_is_open now self (VDatetime now) = Ok false ->
        date_opens d = Ok today_opens ->
        let later := filter (fun o => datetime.dt_gtb o now) today_opens in
        (forall o rest fuel,
           later = o :: rest ->
           hours.time_to_open_fuel _parsetime raw_hours now fuel self VNone
           = Some (Ok (datetime.dt_sub o now)))
        /\ (later = [] ->
            hours.time_to_open_fuel _parsetime raw_hours now k self VNone = None)
        /\ (forall o os fuel,
              later = [] ->
              date_opens (d + Z.of_nat k + 1) = Ok (o :: os) ->
              d + Z.of_nat k + 1 <= datetime.MAXORDINAL -> (k < fuel)%nat ->
              hours.time_to_open_fuel _parsetime raw_hours now fuel self VNone
              = Some (Ok (datetime.dt_sub o now)))
        /\ (forall fuel,
              later = [] ->
              d + Z.of_nat k = datetime.MAXORDINAL -> (k < fuel)%nat ->
              hours.time_to_open_fuel _parsetime raw_hours now fuel self VNone
              = Some (Raise OverflowError))).
Proof.
  intros Hclosed Hmax. split; [| split; [| split; [| split]]].
  - apply next_opens_out_of_fuel; assumption.
  - intros os fuel Hos Hne Hin Hfuel. eapply next_opens_found; eassumption.
  - intros fuel Hend Hfuel. eapply next_opens_overflow; eassumption.
  - unfold hours.calendar_fuel. lia.
  - intros self today_opens Hd Hlab Hopens later. subst d.
    assert (T := fun fuel =>
                   time_to_open_fuel_closed_now fuel self today_opens Hlab Hopens).
    fold later in T.
    split; [| split; [| split]].
    + intros o rest fuel Hl. rewrite T, Hl.
      rewrite next_opens_nonempty by discriminate. reflexivity.
    + intros Hl. rewrite T, Hl.
      rewrite next_opens_out_of_fuel by assumption. reflexivity.
    + intros o os fuel Hl Hos Hin Hfuel. rewrite T, Hl.
      rewrite (next_opens_found k fuel _ (o :: os)) by (assumption || discriminate).
      reflexivity.
    + intros fuel Hl Hend Hfuel. rewrite T, Hl.
      rewrite (next_opens_overflow k fuel) by assumption. reflexivity.
Qed.

End Search.

Lemma date_opens_closed (now : datetime.datetime) (d : datetime.date) :
  hours.date_opens examples.strptime_HM examples.cfg_closed now d = Ok [].
Proof.
  unfold hours.date_opens, hours.get_hours. cbn [truthy negb is_datetime].
  set (g := hours._generate_regular_hours _ _). vm_compute in g. subst g.
  cbn [bind]. unfold datetime.weekday.
  pose proof (Z.mod_pos_bound (d + 6) 7 ltac:(lia)) as Hw.
  remember ((d + 6) mod 7) as w eqn:Ew.
  assert (Hc : w = 0 \/ w = 1 \/ w = 2 \/ w = 3 \/ w = 4 \/ w = 5 \/ w = 6) by lia.
  destruct Hc as [-> | [-> | [-> | [-> | [-> | [-> | ->]]]]]]; reflexivity.
Qed.

(** C2, counterexample. No weekday has an interval and there is no
    holiday.  [time_to_open] is called without [when] on Sunday 2015-10-11
    at 22:00 for the Hours of Monday 2015-10-12: the lab is closed, after
    1000 successive dates the search is still running, and it ends only at
    the end of the calendar, with OverflowError. *)
Lemma C2_counterexample :
  let self := examples.closed_hours in
  let now := examples.at_ (examples.monday - 1) 22 0 in
  hours.lab_is_open now self VNone = Ok false
  /\ hours.time_to_open_fuel examples.strptime_HM examples.cfg_closed now
       1000 self VNone = None
  /\ hours.time_to_open examples.strptime_HM examples.cfg_closed now self VNone
     = Some (Raise OverflowError).
Proof.
  cbv zeta. split; [reflexivity |].
  assert (V : hours._validate_time (examples.at_ (examples.monday - 1) 22 0)
                examples.closed_hours VNone
              = Ok (VDatetime (examples.at_ (examples.monday - 1) 22 0)))
    by reflexivity.
  assert (L : hours.lab_is_open (examples.at_ (examples.monday - 1) 22 0)
                examples.closed_hours
                (VDatetime (examples.at_ (examples.monday - 1) 22 0)) = Ok false)
    by reflexivity.
  assert (D : hours.date examples.closed_hours = 735883) by reflexivity.
  split.
  - unfold hours.time_to_open_fuel. rewrite V, L, date_opens_closed.
    cbn [bind filterM].
    rewrite (next_opens_out_of_fuel _ _ _ 1000); [reflexivity | |].
    + intros i _. apply date_opens_closed.
    + rewrite D. unfold datetime.MAXORDINAL. lia.
  - unfold hours.time_to_open, hours.time_to_open_fuel.
    rewrite V, L, date_opens_closed. cbn [bind filterM].
    rewrite (next_opens_overflow _ _ _
               (Z.to_nat (datetime.MAXORDINAL - hours.date examples.closed_hours)));
      [reflexivity | | |].
    + intros i _. apply date_opens_closed.
    + rewrite D. unfold datetime.MAXORDINAL. lia.
    + unfold hours.calendar_fuel. lia.
Qed.

Lemma C2_search_is_not_bounded_witness :
  let saturday := examples.monday + 5 in
  let now := examples.at_ (examples.monday + 4) 22 0 in
  let self := hours.mkHours saturday "Saturday" None [] in
  let opens := hours.date_opens examples.strptime_HM examples.cfg_workdays now in
  ((forall i, 1 <= i <= Z.of_nat 1 -> opens (saturday + i) = Ok [])
   /\ saturday + Z.of_nat 1 <= datetime.MAXORDINAL)
  /\ hours.next_opens examples.strptime_HM examples.cfg_workdays now 1 saturday []
     = None
  /\ hours.lab_is_open now self (VDatetime now) = Ok false
  /\ hours.time_to_open_fuel examples.strptime_HM examples.cfg_workdays now 1
       self VNone = None
  /\ hours.time_to_open examples.strptime_HM examples.cfg_workdays now self VNone
     = Some (Ok (datetime.dt_sub (examples.at_ (saturday + 2) 9 0) now))
  /\ datetime.dt_sub (examples.at_ (saturday + 2) 9 0) now = 59 * 3600 * 1000000
  /\ hours.time_to_open examples.strptime_HM examples.cfg_daily
       (examples.at_ (examples.monday - 1) 22 0) examples.closed_hours VNone
     = Some (Ok (11 * 3600 * 1000000)).
Proof.
  cbv zeta.
  assert (Hsunday :
            hours.time_to_open examples.strptime_HM examples.cfg_daily
              (examples.at_ (examples.monday - 1) 22 0) examples.closed_hours VNone
            = Some (Ok (11 * 3600 * 1000000))).
  { assert (H0 : forall i, 1 <= i <= Z.of_nat 0 ->
              hours.date_opens examples.strptime_HM examples.cfg_daily
                (examples.at_ (examples.monday - 1) 22 0) (examples.monday + i)
              = Ok []) by (intros i Hi; cbn in Hi; lia).
    assert (H1 : examples.monday + Z.of_nat 0 <= datetime.MAXORDINAL)
      by (vm_compute; discriminate).
    destruct (C2_search_is_not_bounded examples.strptime_HM examples.cfg_daily
                (examples.at_ (examples.monday - 1) 22 0) 0 examples.monday H0 H1)
      as (_ & _ & _ & _ & Hmethod).
    specialize (Hmethod examples.closed_hours
                  [examples.at_ examples.monday 9 0] eq_refl eq_refl eq_refl).
    cbv zeta in Hmethod. destruct Hmethod as (Hlater & _).
    unfold hours.time_to_open.
    apply (Hlater (examples.at_ examples.monday 9 0) []). reflexivity. }
  assert (Hclosed : forall i, 1 <= i <= Z.of_nat 1 ->
            hours.date_opens examples.strptime_HM examples.cfg_workdays
              (examples.at_ (examples.monday + 4) 22 0) (examples.monday + 5 + i)
            = Ok []).
  { intros i Hi. assert (Hc : i = 1) by lia. subst i. reflexivity. }
  assert (Hmax : examples.monday + 5 + Z.of_nat 1 <= datetime.MAXORDINAL)
    by (vm_compute; discriminate).
  assert (Hlab : hours.lab_is_open (examples.at_ (examples.monday + 4) 22 0)
                   (hours.mkHours (examples.monday + 5) "Saturday" None [])
                   (VDatetime (examples.at_ (examples.monday + 4) 22 0))
                 = Ok false) by reflexivity.
  split; [split; assumption |].
  destruct (C2_search_is_not_bounded examples.strptime_HM examples.cfg_workdays
              (examples.at_ (examples.monday + 4) 22 0) 1 (examples.monday + 5)
              Hclosed Hmax) as (Hnone & _ & _ & Hcal & Hmethod).
  specialize (Hmethod (hours.mkHours (examples.monday + 5) "Saturday" None []) []
                eq_refl Hlab eq_refl).
  cbv zeta in Hmethod. destruct Hmethod as (_ & Hrun & Hfound & _).
  split; [exact Hnone |].
  split; [exact Hlab |].
  split; [apply Hrun; reflexivity |].
  split; [| split; [reflexivity | exact Hsunday]].
  unfold hours.time_to_open.
  apply (Hfound (examples.at_ (examples.monday + 5 + 2) 9 0) []).
  - reflexivity.
  - reflexivity.
  - vm_compute; discriminate.
  - exact Hcal.
Defined.

(** ** Resolving a date *)
Section Resolve.

Variable _parsetime : string -> result datetime.time.
Variable raw_hours : hours.raw_config.
Variable now : datetime.datetime.

Local Abbreviation _generate_regular_hours :=
  (hours._generate_regular_hours _parsetime raw_hours).
Local Abbreviation get_hours := (hours.get_hours _parsetime raw_hours now).

Lemma Days_of_value_weekday (d : datetime.date) :
  exists wd, hours.Days_of_value (datetime.weekday d) = Ok wd.
Proof.
  unfold datetime.weekday.
  pose proof (Z.mod_pos_bound (d + 6) 7 ltac:(lia)) as Hw.
  remember ((d + 6) mod 7) as w eqn:Ew.
  assert (Hc : w = 0 \/ w = 1 \/ w = 2 \/ w = 3 \/ w = 4 \/ w = 5 \/ w = 6) by lia.
  destruct Hc as [-> | [-> | [-> | [-> | [-> | [-> | ->]]]]]];
    eexists; reflexivity.
Qed.

Lemma scan_holidays_find (holidays : list hours.holiday_entry) (d : datetime.date)
    (my_holiday : option string) (my_hours : list hours.Hour) :
  hours.scan_holidays holidays d my_holiday my_hours
  = match find (covers d) holidays with
    | Some (_, _, name, hs) => (Some name, hs)
    | None => (my_holiday, my_hours)
    end.
Proof.
  induction holidays as [| [[[start end_] name] hs] holidays IH]; [reflexivity |].
  cbn [hours.scan_holidays find covers].
  destruct ((start <=? d) && (d <=? end_)); [reflexivity | exact IH].
Qed.

(** [get_hours] on a date, once the configuration has loaded. *)
Lemma get_hours_loaded (d : datetime.date) (regular : hours.week)
    (holidays : list hours.holiday_entry) (wd : hours.Days) :
  _generate_regular_hours = Ok (regular, holidays) ->
  hours.Days_of_value (datetime.weekday d) = Ok wd ->
  get_hours (VDate d)
  = match regular wd with
    | None => Raise KeyError
    | Some dflt =>
        Ok (match find (covers d) holidays with
            | Some (_, _, name, hs) =>
                hours.mkHours d (hours.strftime_A d) (Some name) hs
            | None => hours.mkHours d (hours.strftime_A d) None dflt
            end)
    end.
Proof.
  intros Hgen Hwd. unfold hours.get_hours. cbn [truthy negb is_datetime].
  rewrite Hgen. cbn [bind]. rewrite Hwd. cbn [bind]. unfold hours.week_get.
  destruct (regular wd) as [dflt |]; [| reflexivity].
  cbn [bind]. rewrite scan_holidays_find.
  destruct (find (covers d) holidays) as [[[[start end_] name] hs] |]; reflexivity.
Qed.

Lemma load_week_filter (keep : string * list string -> bool)
    (items : list (string * list string)) :
  forall w w' r,
    hours.load_week _parsetime items w = Ok r ->
    exists r', hours.load_week _parsetime (filter keep items) w' = Ok r'.
Proof.
  induction items as [| [day hs] items IH]; intros w w' r Hload.
  - eexists; reflexivity.
  - cbn [hours.load_week] in Hload.
    destruct (mapM (hours.parse_hour _parsetime) hs) as [i_hours |] eqn:Ehs;
      [| discriminate].
    destruct (hours.Days_of_name day) as [wd |] eqn:Eday; [| discriminate].
    cbn [bind] in Hload.
    cbn [filter]. destruct (keep (day, hs)).
    + cbn [hours.load_week]. rewrite Ehs, Eday. cbn [bind]. eapply IH, Hload.
    + eapply IH, Hload.
Qed.

Lemma mapM_load_holiday_ranges (raws : list hours.raw_holiday) :
  forall holidays,
    mapM (hours.load_holiday _parsetime) raws = Ok holidays ->
    holiday_ranges holidays = raw_holiday_ranges raws.
Proof.
  induction raws as [| data raws IH]; intros holidays Hload.
  - injection Hload as <-. reflexivity.
  - cbn [mapM] in Hload.
    destruct (hours.load_holiday _parsetime data) as [h |] eqn:Eh; [| discriminate].
    destruct (mapM (hours.load_holiday _parsetime) raws) as [hs |]; [| discriminate].
    cbn [bind] in Hload. injection Hload as <-.
    cbn [holiday_ranges raw_holiday_ranges map]. f_equal.
    + unfold hours.load_holiday in Eh.
      destruct (match hours.rh_hours data with
                | Some (h0 :: hs0) => mapM (hours.parse_hour _parsetime) (h0 :: hs0)
                | _ => Ok []
                end) as [i_hours |]; [| discriminate].
      cbn [bind] in Eh. injection Eh as <-. reflexivity.
    + apply IH. reflexivity.
Qed.

(** C4, as amended. Loading does not check which weekdays the template
    has: a configuration that loads still loads after any of its weekday
    entries are dropped.  A missing weekday shows only when a date is
    resolved: after a successful load, [get_hours] on a date raises KeyError
    exactly when the weekday of that date has no entry, whatever the
    holidays, and returns an Hours value otherwise. *)
Theorem C4_missing_weekday_fails_at_lookup (d : datetime.date)
    (regular : hours.week) (holidays : list hours.holiday_entry) (wd : hours.Days) :
  _generate_regular_hours = Ok (regular, holidays) ->
  hours.Days_of_value (datetime.weekday d) = Ok wd ->
  (forall keep,
     is_ok (hours._generate_regular_hours _parsetime
              (hours.mkRawConfig (filter keep (hours.raw_week raw_hours))
                 (hours.raw_holidays raw_hours))) = true)
  /\ (get_hours (VDate d) = Raise KeyError <-> regular wd = None)
  /\ (regular wd <> None -> exists h, get_hours (VDate d) = Ok h).
Proof.
  intros Hgen Hwd. split; [| split].
  - intros keep. unfold hours._generate_regular_hours in *.
    cbn [hours.raw_week hours.raw_holidays].
    destruct (hours.load_week _parsetime (hours.raw_week raw_hours) hours.week_empty)
      as [w |] eqn:Ew; [| discriminate].
    destruct (load_week_filter keep _ _ hours.week_empty _ Ew) as [w' ->].
    cbn [bind] in *.
    destruct (mapM (hours.load_holiday _parsetime) (hours.raw_holidays raw_hours));
      [reflexivity | discriminate].
  - rewrite (get_hours_loaded d regular holidays wd Hgen Hwd).
    destruct (regular wd); split; intros H; try reflexivity; discriminate.
  - intros Hsome. rewrite (get_hours_loaded d regular holidays wd Hgen Hwd).
    destruct (regular wd); [eexists; reflexivity | congruence].
Qed.

(** C5. Once the configuration has loaded and the weekday of [d] has an
    entry, [get_hours d] is that entry with no holiday label, unless some
    holiday covers [d]: then the first holiday of the list with
    [start <= d <= end] gives both the label and the interval list, and an
    empty list there makes [closed_all_day] true.  The parsed holiday list
    keeps the ranges, labels and order of the configured one. *)
Theorem C5_first_covering_holiday_overrides (d : datetime.date)
    (regular : hours.week) (holidays : list hours.holiday_entry)
    (wd : hours.Days) (dflt : list hours.Hour) :
  _generate_regular_hours = Ok (regular, holidays) ->
  hours.Days_of_value (datetime.weekday d) = Ok wd ->
  regular wd = Some dflt ->
  get_hours (VDate d)
  = Ok (match find (covers d) holidays with
        | Some (_, _, name, hs) => hours.mkHours d (hours.strftime_A d) (Some name) hs
        | None => hours.mkHours d (hours.strftime_A d) None dflt
        end)
  /\ (forall before start end_ name hs after,
        holidays = before ++ (start, end_, name, hs) :: after ->
        (forall h, In h before -> covers d h = false) ->
        start <= d <= end_ ->
        get_hours (VDate d) = Ok (hours.mkHours d (hours.strftime_A d) (Some name) hs)
        /\ (hs = [] ->
            hours.closed_all_day
              (hours.mkHours d (hours.strftime_A d) (Some name) hs) = true))
  /\ holiday_ranges holidays = raw_holiday_ranges (hours.raw_holidays raw_hours).
Proof.
  intros Hgen Hwd Hdflt.
  assert (G : get_hours (VDate d)
              = Ok (match find (covers d) holidays with
                    | Some (_, _, name, hs) =>
                        hours.mkHours d (hours.strftime_A d) (Some name) hs
                    | None => hours.mkHours d (hours.strftime_A d) None dflt
                    end)).
  { rewrite (get_hours_loaded d regular holidays wd Hgen Hwd), Hdflt. reflexivity. }
  split; [exact G | split].
  - intros before start end_ name hs after -> Hbefore Hin.
    assert (F : find (covers d) (before ++ (start, end_, name, hs) :: after)
                = Some (start, end_, name, hs)).
    { clear G Hgen. induction before as [| b before IH].
      - cbn [app find covers].
        replace ((start <=? d) && (d <=? end_)) with true; [reflexivity |].
        symmetry. apply andb_true_intro. split; apply Z.leb_le; lia.
      - cbn [app find]. rewrite (Hbefore b (or_introl eq_refl)).
        apply IH. intros h Hh. apply Hbefore. right. exact Hh. }
    rewrite G, F. split; [reflexivity |]. intros ->. reflexivity.
  - unfold hours._generate_regular_hours in Hgen.
    destruct (hours.load_week _parsetime (hours.raw_week raw_hours) hours.week_empty);
      [| discriminate].
    cbn [bind] in Hgen.
    destruct (mapM (hours.load_holiday _parsetime) (hours.raw_holidays raw_hours))
      as [hs |] eqn:Eh; [| discriminate].
    cbn [bind] in Hgen. injection Hgen as _ <-.
    apply mapM_load_holiday_ranges, Eh.
Qed.

End Resolve.

(** C4, counterexample. The template lists Monday to Saturday only.
    Loading it succeeds; resolving Sunday 2015-10-18 raises KeyError, and
    resolving Monday 2015-10-12 returns the Monday hours. *)
Lemma C4_counterexample :
  let now := examples.at_ examples.monday 10 0 in
  is_ok (hours._generate_regular_hours examples.strptime_HM examples.cfg_no_sunday)
  = true
  /\ hours.get_hours examples.strptime_HM examples.cfg_no_sunday now
       (VDate (examples.monday + 6)) = Raise KeyError
  /\ hours.get_hours examples.strptime_HM examples.cfg_no_sunday now
       (VDate examples.monday) = Ok examples.monday_hours.
Proof. cbv zeta. repeat split; reflexivity. Qed.

Lemma C4_missing_weekday_fails_at_lookup_witness :
  let now := examples.at_ examples.monday 10 0 in
  let sunday := examples.monday + 6 in
  exists regular holidays,
    (hours._generate_regular_hours examples.strptime_HM examples.cfg_no_sunday
     = Ok (regular, holidays)
     /\ hours.Days_of_value (datetime.weekday sunday) = Ok hours.Sunday)
    /\ regular hours.Sunday = None
    /\ hours.get_hours examples.strptime_HM examples.cfg_no_sunday now (VDate sunday)
       = Raise KeyError.
Proof.
  cbv zeta.
  destruct (hours._generate_regular_hours examples.strptime_HM examples.cfg_no_sunday)
    as [[regular holidays] |] eqn:Hgen; [| vm_compute in Hgen; discriminate].
  exists regular, holidays.
  assert (Hwd : hours.Days_of_value (datetime.weekday (examples.monday + 6))
                = Ok hours.Sunday) by reflexivity.
  assert (Hnone : regular hours.Sunday = None).
  { pose proof Hgen as Hc. vm_compute in Hc. injection Hc as Hr _.
    rewrite <- Hr. reflexivity. }
  split; [split; [reflexivity | exact Hwd] |].
  split; [exact Hnone |].
  destruct (C4_missing_weekday_fails_at_lookup examples.strptime_HM
              examples.cfg_no_sunday (examples.at_ examples.monday 10 0)
              (examples.monday + 6) regular holidays hours.Sunday Hgen Hwd)
    as (_ & Hiff & _).
  apply Hiff, Hnone.
Defined.

Lemma C5_first_covering_holiday_overrides_witness :
  let now := examples.at_ examples.monday 10 0 in
  let christmas := datetime.ymd 2015 12 25 in
  exists regular holidays dflt,
    (hours._generate_regular_hours examples.strptime_HM examples.cfg_daily
     = Ok (regular, holidays)
     /\ hours.Days_of_value (datetime.weekday christmas) = Ok hours.Friday
     /\ regular hours.Friday = Some dflt)
    /\ hours.get_hours examples.strptime_HM examples.cfg_daily now (VDate christmas)
       = Ok (hours.mkHours christmas "Friday" (Some "Christmas"%string) []).
Proof.
  cbv zeta.
  destruct (hours._generate_regular_hours examples.strptime_HM examples.cfg_daily)
    as [[regular holidays] |] eqn:Hgen; [| vm_compute in Hgen; discriminate].
  pose proof Hgen as Hc. vm_compute in Hc. injection Hc as Hr Hh.
  exists regular, holidays,
    [hours.mkHour (datetime.hm 9 0) (datetime.hm 21 0)].
  assert (Hwd : hours.Days_of_value (datetime.weekday (datetime.ymd 2015 12 25))
                = Ok hours.Friday) by reflexivity.
  assert (Hdflt : regular hours.Friday
                  = Some [hours.mkHour (datetime.hm 9 0) (datetime.hm 21 0)])
    by (rewrite <- Hr; reflexivity).
  split; [split; [reflexivity | split; [exact Hwd | exact Hdflt]] |].
  destruct (C5_first_covering_holiday_overrides examples.strptime_HM
              examples.cfg_daily (examples.at_ examples.monday 10 0)
              (datetime.ymd 2015 12 25) regular holidays hours.Friday _
              Hgen Hwd Hdflt) as (Hget & _ & _).
  rewrite Hget, <- Hh. reflexivity.
Defined.

(** ** Printing quota *)
Section QuotaProperties.

Context {C : Type} `{quota.Cursor C}.
Variable now : datetime.datetime.

(** C6. For a user other than pubstaff, [get_quota] sends the SELECT for
    that user, takes the first row ([(0, 0)] when there is none) and returns
    [semesterly = max(0, SEMESTERLY_QUOTA - semester)] and
    [daily = max(0, min(semesterly, daily_quota(today) - today))]; with 3
    pages today, 98 this semester and a daily quota of 8 that is
    [semesterly = 2] and [daily = 2]. *)
Theorem C6_get_quota_formula (c : C) (user : string) :
  user <> "pubstaff"%string ->
  let fetched :=
    quota.fetchone
      (quota.execute "SELECT `today`, `semester` FROM `printed` WHERE `user` = %s"
         [quota.SStr user] c) in
  let today_used := match fst fetched with Some r => quota.today r | None => 0 end in
  let semester_used :=
    match fst fetched with Some r => quota.semester r | None => 0 end in
  let semesterly := Z.max 0 (quota.SEMESTERLY_QUOTA - semester_used) in
  let cap := quota.daily_quota now (Some (datetime.dt_date now)) in
  quota.get_quota now c user
  = (quota.mkUserQuota user (Z.max 0 (Z.min semesterly (cap - today_used)))
       semesterly,
     snd fetched)
  /\ quota.SEMESTERLY_QUOTA = 100
  /\ (today_used = 3 -> semester_used = 98 -> cap = 8 ->
      fst (quota.get_quota now c user) = quota.mkUserQuota user 2 2).
Proof.
  intros Huser fetched today_used semester_used semesterly cap.
  assert (G : quota.get_quota now c user
              = (quota.mkUserQuota user
                   (Z.max 0 (Z.min semesterly (cap - today_used))) semesterly,
                 snd fetched)).
  { unfold quota.get_quota.
    destruct (String.eqb_spec user "pubstaff") as [E | _]; [contradiction |].
    subst semesterly cap today_used semester_used fetched.
    destruct (quota.fetchone _) as [[r |] c']; reflexivity. }
  split; [exact G | split; [reflexivity |]].
  intros Ht Hs Hc. rewrite G. cbn [fst]. subst semesterly.
  rewrite Ht, Hs, Hc. reflexivity.
Qed.

(** C7. Whatever the cursor returns and whoever the user is, the quota
    returned has [0 <= daily <= semesterly]. *)
Theorem C7_quota_bounds (c : C) (user : string) :
  let q := fst (quota.get_quota now c user) in
  0 <= quota.daily q /\ 0 <= quota.semesterly q
  /\ quota.daily q <= quota.semesterly q.
Proof.
  unfold quota.get_quota.
  destruct (String.eqb user "pubstaff").
  - cbn. lia.
  - destruct (quota.fetchone _) as [[r |] c']; cbn [fst quota.daily quota.semesterly];
      lia.
Qed.

End QuotaProperties.

Lemma C6_get_quota_formula_witness :
  "ckuehl"%string <> "pubstaff"%string
  /\ fst (quota.get_quota (examples.at_ examples.monday 10 0)
            examples.printed_ckuehl "ckuehl")
     = quota.mkUserQuota "ckuehl" 2 2.
Proof.
  assert (Hne : "ckuehl"%string <> "pubstaff"%string) by discriminate.
  split; [exact Hne |].
  pose proof (C6_get_quota_formula (examples.at_ examples.monday 10 0)
                examples.printed_ckuehl "ckuehl" Hne) as T.
  cbv zeta in T. destruct T as (_ & _ & E).
  apply E; reflexivity.
Defined.

(** C10. [add_job] is one [execute] call: the statement is the INSERT into
    [jobs] whose column list is the seven fields of [Job] in declaration
    order, with one [%s] placeholder each, and the parameters are the seven
    field values in that order, as they are.  [add_refund] is the same for
    the five fields of [Refund] and the [refunds] table.  On a cursor that
    records its statements, exactly that one entry is added. *)
Theorem C10_add_job_add_refund_single_insert :
  (forall (C : Type) (cursor : quota.Cursor C) (c : C)
          (user time pages queue printer doc_name filesize : quota.sqlval),
      quota.add_job c (quota.Job user time pages queue printer doc_name filesize)
      = Ok (quota.execute
              "INSERT INTO jobs (`user`, `time`, `pages`, `queue`, `printer`, `doc_name`, `filesize`) VALUES (%s, %s, %s, %s, %s, %s, %s)"
              [user; time; pages; queue; printer; doc_name; filesize] c))
  /\ (forall (C : Type) (cursor : quota.Cursor C) (c : C)
             (user time pages staffer reason : quota.sqlval),
         quota.add_refund c (quota.Refund user time pages staffer reason)
         = Ok (quota.execute
                 "INSERT INTO refunds (`user`, `time`, `pages`, `staffer`, `reason`) VALUES (%s, %s, %s, %s, %s)"
                 [user; time; pages; staffer; reason] c))
  /\ (forall (c : quota.table_cursor)
             (user time pages queue printer doc_name filesize : quota.sqlval),
         exists c',
           quota.add_job c (quota.Job user time pages queue printer doc_name filesize)
           = Ok c'
           /\ quota.printed c' = quota.printed c
           /\ quota.executed c'
              = quota.executed c
                ++ [("INSERT INTO jobs (`user`, `time`, `pages`, `queue`, `printer`, `doc_name`, `filesize`) VALUES (%s, %s, %s, %s, %s, %s, %s)"%string,
                     [user; time; pages; queue; printer; doc_name; filesize])])
  /\ (forall (c : quota.table_cursor) (user time pages staffer reason : quota.sqlval),
         exists c',
           quota.add_refund c (quota.Refund user time pages staffer reason) = Ok c'
           /\ quota.printed c' = quota.printed c
           /\ quota.executed c'
              = quota.executed c
                ++ [("INSERT INTO refunds (`user`, `time`, `pages`, `staffer`, `reason`) VALUES (%s, %s, %s, %s, %s)"%string,
                     [user; time; pages; staffer; reason])]).
Proof.
  split; [| split; [| split]].
  - intros. reflexivity.
  - intros. reflexivity.
  - intros. eexists. split; [reflexivity | split; reflexivity].
  - intros. eexists. split; [reflexivity | split; reflexivity].
Qed.

(** * Further properties of the two modules *)

(** ** Interval strings *)

Lemma split_no_sep (sep : ascii) (s : string) :
  no_char sep s = true -> split sep s = [s].
Proof.
  induction s as [| a s IH]; [reflexivity |].
  cbn [no_char split]. intros H. apply andb_prop in H as [Ha Hs].
  apply negb_true_iff in Ha. rewrite Ha, (IH Hs). reflexivity.
Qed.

Lemma split_app_sep (sep : ascii) (a b : string) :
  no_char sep a = true ->
  split sep (String.append a (String sep b)) = a :: split sep b.
Proof.
  induction a as [| c a IH]; intros H.
  - cbn [String.append split]. rewrite Ascii.eqb_refl. reflexivity.
  - cbn [no_char] in H. apply andb_prop in H as [Hc Ha].
    apply negb_true_iff in Hc. cbn [String.append split].
    rewrite Hc, (IH Ha). reflexivity.
Qed.

Section Intervals.

Variable _parsetime : string -> result datetime.time.

Local Abbreviation parse_hour := (hours.parse_hour _parsetime).

(** X1. An interval string is cut at its dashes and only the first two
    pieces are read: [a-b] and [a-b-anything] both give
    [Hour(_parsetime(a), _parsetime(b))], the open time being parsed first;
    a string without a dash is an IndexError, raised after its whole text
    has been parsed as the open time. *)
Theorem X1_parse_hour_pieces (a b rest : string) :
  no_char "-" a = true ->
  no_char "-" b = true ->
  parse_hour (String.append a (String "-" b))
  = (o <- _parsetime a ;; c <- _parsetime b ;; Ok (hours.mkHour o c))
  /\ parse_hour (String.append a (String "-" (String.append b (String "-" rest))))
     = (o <- _parsetime a ;; c <- _parsetime b ;; Ok (hours.mkHour o c))
  /\ parse_hour a = (o <- _parsetime a ;; Raise IndexError).
Proof.
  intros Ha Hb. unfold hours.parse_hour. split; [| split].
  - rewrite (split_app_sep _ _ _ Ha), (split_no_sep _ _ Hb). reflexivity.
  - rewrite (split_app_sep _ _ _ Ha), (split_app_sep _ _ _ Hb). reflexivity.
  - rewrite (split_no_sep _ _ Ha). reflexivity.
Qed.

End Intervals.

Lemma X1_parse_hour_pieces_witness :
  (no_char "-" "09:00" = true /\ no_char "-" "21:00" = true)
  /\ hours.parse_hour examples.strptime_HM "09:00-21:00"
     = Ok (hours.mkHour (datetime.hm 9 0) (datetime.hm 21 0))
  /\ hours.parse_hour examples.strptime_HM "09:00" = Raise IndexError.
Proof.
  assert (Ha : no_char "-" "09:00" = true) by reflexivity.
  assert (Hb : no_char "-" "21:00" = true) by reflexivity.
  split; [split; assumption |].
  destruct (X1_parse_hour_pieces examples.strptime_HM "09:00" "21:00" "" Ha Hb)
    as (H1 & _ & H3).
  split; [exact H1 | exact H3].
Defined.

(** ** Loading the configuration *)

Lemma is_ok_mapM {A B : Type} (f : A -> result B) (l : list A) :
  is_ok (mapM f l) = forallb (fun a => is_ok (f a)) l.
Proof.
  induction l as [| a l IH]; [reflexivity |].
  cbn [mapM forallb]. destruct (f a) as [b | e]; [| reflexivity].
  cbn [bind is_ok andb]. rewrite <- IH.
  destruct (mapM f l); reflexivity.
Qed.

Lemma find_app_last {A : Type} (p : A -> bool) (l : list A) (a : A) :
  find p (l ++ [a])
  = match find p l with
    | Some x => Some x
    | None => if p a then Some a else None
    end.
Proof.
  induction l as [| b l IH]; [reflexivity |].
  cbn [app find]. destruct (p b); [reflexivity | exact IH].
Qed.

Lemma forallb_pointwise {A : Type} (p q : A -> bool) (l : list A) :
  (forall a, p a = q a) -> forallb p l = forallb q l.
Proof.
  intros E. induction l as [| a l IH]; [reflexivity |].
  cbn [forallb]. now rewrite E, IH.
Qed.

Section Loading.

Variable _parsetime : string -> result datetime.time.

Local Abbreviation parse_hour := (hours.parse_hour _parsetime).
Local Abbreviation load_week := (hours.load_week _parsetime).

Lemma is_ok_load_week (items : list (string * list string)) :
  forall w,
    is_ok (load_week items w)
    = forallb (fun item => forallb (fun h => is_ok (parse_hour h)) (snd item)
                           && is_ok (hours.Days_of_name (fst item))) items.
Proof.
  induction items as [| [day hs] items IH]; intros w; [reflexivity |].
  cbn [hours.load_week forallb fst snd]. rewrite <- is_ok_mapM.
  destruct (mapM parse_hour hs) as [i_hours | e]; [| reflexivity].
  cbn [bind is_ok andb].
  destruct (hours.Days_of_name day) as [d | e]; [| reflexivity].
  cbn [bind is_ok andb]. apply IH.
Qed.

Lemma load_week_lookup (items : list (string * list string)) :
  forall w r wd,
    load_week items w = Ok r ->
    r wd = match find (names_day wd) (rev items) with
           | Some item =>
               match mapM parse_hour (snd item) with
               | Ok i_hours => Some i_hours
               | Raise _ => None
               end
           | None => w wd
           end.
Proof.
  induction items as [| [day hs] items IH]; intros w r wd Hload.
  - injection Hload as <-. reflexivity.
  - cbn [hours.load_week] in Hload.
    destruct (mapM parse_hour hs) as [i_hours |] eqn:Ehs; [| discriminate].
    destruct (hours.Days_of_name day) as [d |] eqn:Eday; [| discriminate].
    cbn [bind] in Hload.
    rewrite (IH _ _ wd Hload). cbn [rev]. rewrite find_app_last.
    destruct (find (names_day wd) (rev items)) as [item |]; [reflexivity |].
    unfold names_day. cbn [fst]. rewrite Eday.
    unfold hours.week_set. destruct (hours.Days_eqb d wd); [| reflexivity].
    cbn [snd]. rewrite Ehs. reflexivity.
Qed.

Variable raw_hours : hours.raw_config.

Local Abbreviation _generate_regular_hours :=
  (hours._generate_regular_hours _parsetime raw_hours).

(** X2. Loading succeeds exactly when every item of the weekly template is
    named after a member of [Days] and every interval string, of the
    template and of the holidays, parses; nothing else is checked. *)
Theorem X2_load_succeeds_iff_all_parse :
  is_ok _generate_regular_hours
  = forallb (fun item => forallb (fun h => is_ok (parse_hour h)) (snd item)
                         && is_ok (hours.Days_of_name (fst item)))
      (hours.raw_week raw_hours)
    && forallb (fun data =>
                  match hours.rh_hours data with
                  | Some hs => forallb (fun h => is_ok (parse_hour h)) hs
                  | None => true
                  end)
         (hours.raw_holidays raw_hours).
Proof.
  unfold hours._generate_regular_hours.
  rewrite <- is_ok_load_week with (w := hours.week_empty).
  destruct (load_week (hours.raw_week raw_hours) hours.week_empty) as [w | e];
    [| reflexivity].
  cbn [bind is_ok andb].
  transitivity (is_ok (mapM (hours.load_holiday _parsetime)
                         (hours.raw_holidays raw_hours))).
  { destruct (mapM _ _); reflexivity. }
  rewrite is_ok_mapM. apply forallb_pointwise. intros data.
  unfold hours.load_holiday.
  destruct (hours.rh_hours data) as [[| h hs] |]; try reflexivity.
  rewrite <- is_ok_mapM. destruct (mapM parse_hour (h :: hs)); reflexivity.
Qed.

(** X3. After a successful load the template has, for a weekday, the
    parsed intervals of the last item of the file that names it, and no
    entry for a weekday that no item names. *)
Theorem X3_loaded_week_lookup (regular : hours.week)
    (holidays : list hours.holiday_entry) (wd : hours.Days) :
  _generate_regular_hours = Ok (regular, holidays) ->
  regular wd
  = match find (names_day wd) (rev (hours.raw_week raw_hours)) with
    | Some item =>
        match mapM parse_hour (snd item) with
        | Ok i_hours => Some i_hours
        | Raise _ => None
        end
    | None => None
    end.
Proof.
  unfold hours._generate_regular_hours. intros Hgen.
  destruct (load_week (hours.raw_week raw_hours) hours.week_empty) as [w |] eqn:Ew;
    [| discriminate].
  cbn [bind] in Hgen.
  destruct (mapM (hours.load_holiday _parsetime) (hours.raw_holidays raw_hours));
    [| discriminate].
  cbn [bind] in Hgen. injection Hgen as <- _.
  apply (load_week_lookup _ _ _ wd Ew).
Qed.

End Loading.

Lemma X3_loaded_week_lookup_witness :
  exists regular holidays,
    hours._generate_regular_hours examples.strptime_HM examples.cfg_no_sunday
    = Ok (regular, holidays)
    /\ regular hours.Monday
       = Some [hours.mkHour (datetime.hm 9 0) (datetime.hm 21 0)]
    /\ regular hours.Sunday = None.
Proof.
  destruct (hours._generate_regular_hours examples.strptime_HM examples.cfg_no_sunday)
    as [[regular holidays] |] eqn:Hgen; [| vm_compute in Hgen; discriminate].
  exists regular, holidays. split; [reflexivity |].
  split;
    rewrite (X3_loaded_week_lookup examples.strptime_HM examples.cfg_no_sunday
               regular holidays _ Hgen);
    reflexivity.
Defined.

(** ** Resolved days *)
Section Resolved.

Variable _parsetime : string -> result datetime.time.
Variable raw_hours : hours.raw_config.
Variable now : datetime.datetime.

Local Abbreviation get_hours := (hours.get_hours _parsetime raw_hours now).
Local Abbreviation time_to_open := (hours.time_to_open _parsetime raw_hours now).

Lemma Days_name_roundtrip (wd : hours.Days) :
  hours.Days_of_name (hours.Days_name wd) = Ok wd.
Proof. destruct wd; reflexivity. Qed.

Lemma get_hours_date_fields (d : datetime.date) (h : hours.Hours) :
  get_hours (VDate d) = Ok h ->
  hours.date h = d /\ hours.weekday h = hours.strftime_A d.
Proof.
  unfold hours.get_hours. cbn [truthy negb is_datetime].
  destruct (hours._generate_regular_hours _parsetime raw_hours) as [[hs holidays] |];
    [| discriminate].
  cbn [bind].
  destruct (hours.Days_of_value (datetime.weekday d)) as [wd |]; [| discriminate].
  cbn [bind].
  destruct (hours.week_get hs wd) as [my_hours |]; [| discriminate].
  cbn [bind].
  destruct (hours.scan_holidays holidays d None my_hours) as [my_holiday my_hours'].
  intros E. injection E as <-. split; reflexivity.
Qed.

(** X4. [get_hours] without argument resolves the date of the clock, and
    on a datetime the date of that datetime.  Whatever it returns carries
    the resolved date, and its [weekday] field is the name of the member of
    [Days] that the date's [weekday()] number selects. *)
Theorem X4_get_hours_resolves_the_date (dt : datetime.datetime) (d : datetime.date)
    (h : hours.Hours) :
  get_hours (VDate d) = Ok h ->
  get_hours VNone = get_hours (VDate (datetime.dt_date now))
  /\ get_hours (VDatetime dt) = get_hours (VDate (datetime.dt_date dt))
  /\ hours.date h = d
  /\ hours.Days_of_name (hours.weekday h)
     = hours.Days_of_value (datetime.weekday d).
Proof.
  intros Hget. destruct (get_hours_date_fields d h Hget) as [Hd Hw].
  split; [reflexivity | split; [reflexivity | split; [exact Hd |]]].
  rewrite Hw. unfold hours.strftime_A.
  destruct (Days_of_value_weekday d) as [wd Hwd]. rewrite Hwd.
  apply Days_name_roundtrip.
Qed.

Lemma time_to_open_same_date (self : hours.Hours) :
  hours.date self = datetime.dt_date now ->
  time_to_open self VNone = Some (Raise ValueError).
Proof.
  intros Hd. unfold hours.time_to_open, hours.time_to_open_fuel.
  cbn [hours._validate_time truthy negb]. unfold hours.lab_is_open.
  rewrite (validate_same_date now self now (eq_sym Hd)). reflexivity.
Qed.

(** X5. [Hours.today().time_to_open()] never returns: the Hours of the
    clock's date has that date, and [time_to_open] without [when] on an
    Hours of the clock's date raises ValueError, whatever the schedule and
    whether the lab is open or not. *)
Theorem X5_today_time_to_open_raises (self : hours.Hours) :
  hours.today _parsetime raw_hours now = Ok self ->
  hours.date self = datetime.dt_date now
  /\ time_to_open self VNone = Some (Raise ValueError).
Proof.
  unfold hours.today. intros Htoday.
  assert (Hd : hours.date self = datetime.dt_date now).
  { apply (get_hours_date_fields (datetime.dt_date now) self). exact Htoday. }
  split; [exact Hd | apply time_to_open_same_date, Hd].
Qed.

Lemma filterM_gt_None (os : list datetime.datetime) :
  filterM (fun o => hours.gt_value o VNone) os
  = match os with
    | [] => Ok []
    | _ :: _ => Raise TypeError
    end.
Proof. destruct os; reflexivity. Qed.

(** X6. With a datetime passed as [when], none of the three methods ever
    gives an answer about that instant: [lab_is_open] can only return
    False, and only for an Hours without intervals, [time_to_close] can
    only return zero, for such an Hours too, and [time_to_open] can only
    return zero. *)
Theorem X6_explicit_when_answers (self : hours.Hours) (dt : datetime.datetime) :
  (forall b, hours.lab_is_open now self (VDatetime dt) = Ok b ->
             b = false /\ hours.hours self = [])
  /\ (forall r, hours.time_to_close now self (VDatetime dt) = Ok r ->
                r = 0 /\ hours.hours self = [])
  /\ (forall r, time_to_open self (VDatetime dt) = Some (Ok r) -> r = 0).
Proof.
  split; [| split].
  - intros b. unfold hours.lab_is_open.
    destruct (hours._validate_time now self (VDatetime dt)) as [v |] eqn:Ev;
      [| discriminate].
    destruct (validate_datetime_inv now self dt v Ev) as [-> _]. cbn [bind].
    destruct (hours.hours self) as [| hr hs]; [| discriminate].
    intros E. injection E as <-. split; reflexivity.
  - intros r. unfold hours.time_to_close.
    destruct (hours._validate_time now self (VDatetime dt)) as [v |] eqn:Ev;
      [| discriminate].
    destruct (validate_datetime_inv now self dt v Ev) as [-> _]. cbn [bind].
    destruct (hours.hours self) as [| hr hs]; [| discriminate].
    intros E. injection E as <-. split; reflexivity.
  - intros r. unfold hours.time_to_open, hours.time_to_open_fuel.
    destruct (hours._validate_time now self (VDatetime dt)) as [v |] eqn:Ev;
      [| discriminate].
    destruct (validate_datetime_inv now self dt v Ev) as [-> _].
    destruct (hours.lab_is_open now self VNone) as [[|] |]; try discriminate.
    { intros E. injection E as <-. reflexivity. }
    destruct (hours.date_opens _parsetime raw_hours now (hours.date self))
      as [os |]; [| discriminate].
    cbn [bind]. rewrite filterM_gt_None.
    destruct os as [| o os]; [| discriminate].
    destruct (hours.next_opens _ _ _ _ _ _) as [[os' | e] |]; try discriminate.
    destruct os' as [| o' os']; discriminate.
Qed.

End Resolved.

Lemma X4_get_hours_resolves_the_date_witness :
  let now := examples.at_ examples.monday 10 0 in
  hours.get_hours examples.strptime_HM examples.cfg_daily now (VDate examples.monday)
  = Ok examples.monday_hours
  /\ hours.get_hours examples.strptime_HM examples.cfg_daily now VNone
     = hours.get_hours examples.strptime_HM examples.cfg_daily now
         (VDate examples.monday)
  /\ hours.Days_of_name (hours.weekday examples.monday_hours) = Ok hours.Monday.
Proof.
  cbv zeta.
  assert (Hget : hours.get_hours examples.strptime_HM examples.cfg_daily
                   (examples.at_ examples.monday 10 0) (VDate examples.monday)
                 = Ok examples.monday_hours) by reflexivity.
  split; [exact Hget |].
  destruct (X4_get_hours_resolves_the_date examples.strptime_HM examples.cfg_daily
              (examples.at_ examples.monday 10 0)
              (examples.at_ examples.monday 10 0) examples.monday
              examples.monday_hours Hget) as (Hnone & _ & _ & Hname).
  split; [exact Hnone | exact Hname].
Defined.

Lemma X5_today_time_to_open_raises_witness :
  let now := examples.at_ examples.monday 10 0 in
  hours.today examples.strptime_HM examples.cfg_daily now = Ok examples.monday_hours
  /\ hours.time_to_open examples.strptime_HM examples.cfg_daily now
       examples.monday_hours VNone = Some (Raise ValueError).
Proof.
  cbv zeta.
  assert (Htoday : hours.today examples.strptime_HM examples.cfg_daily
                     (examples.at_ examples.monday 10 0) = Ok examples.monday_hours)
    by reflexivity.
  split; [exact Htoday |].
  apply (X5_today_time_to_open_raises examples.strptime_HM examples.cfg_daily
           (examples.at_ examples.monday 10 0) examples.monday_hours Htoday).
Defined.

Lemma X6_explicit_when_answers_witness :
  let now := examples.at_ examples.monday 10 0 in
  let when := VDatetime (examples.at_ (examples.monday + 1) 10 0) in
  hours.lab_is_open now examples.closed_hours when = Ok false
  /\ hours.hours examples.closed_hours = [].
Proof.
  cbv zeta.
  assert (Hopen : hours.lab_is_open (examples.at_ examples.monday 10 0)
                    examples.closed_hours
                    (VDatetime (examples.at_ (examples.monday + 1) 10 0)) = Ok false)
    by reflexivity.
  split; [exact Hopen |].
  destruct (X6_explicit_when_answers examples.strptime_HM examples.cfg_closed
              (examples.at_ examples.monday 10 0) examples.closed_hours
              (examples.at_ (examples.monday + 1) 10 0)) as (Hlab & _ & _).
  apply (Hlab false Hopen).
Defined.

(** ** Closing time *)

Lemma filterM_contains (dt : datetime.datetime) (hs : list hours.Hour) :
  filterM (fun hour => hours.contains hour (VDatetime dt)) hs
  = Ok (filter (in_hour (datetime.dt_time dt)) hs).
Proof.
  induction hs as [| h hs IH]; [reflexivity |].
  cbn [filterM filter]. rewrite contains_datetime, IH. reflexivity.
Qed.

Lemma existsb_filter {A : Type} (p : A -> bool) (l : list A) :
  existsb p l = match filter p l with
                | [] => false
                | _ :: _ => true
                end.
Proof.
  induction l as [| a l IH]; [reflexivity |].
  cbn [existsb filter]. destruct (p a); [reflexivity | exact IH].
Qed.

(** X7. Asked without [when] on the Hours of the clock's date,
    [time_to_close] always returns: zero when [lab_is_open] is false, and
    when it is true the strictly positive time from now to the close of
    the first interval of the list that contains now. *)
Theorem X7_time_to_close_today (now : datetime.datetime) (self : hours.Hours) :
  hours.date self = datetime.dt_date now ->
  exists r,
    hours.time_to_close now self VNone = Ok r
    /\ (hours.lab_is_open now self VNone = Ok false -> r = 0)
    /\ (hours.lab_is_open now self VNone = Ok true ->
        0 < r
        /\ exists h rest,
             filter (in_hour (datetime.dt_time now)) (hours.hours self) = h :: rest
             /\ In h (hours.hours self)
             /\ datetime.dt_time now + r = hours.close h).
Proof.
  intros Hd. unfold hours.time_to_close. cbn [hours._validate_time truthy negb bind].
  rewrite filterM_contains, lab_is_open_now, existsb_filter. cbn [bind].
  destruct (filter (in_hour (datetime.dt_time now)) (hours.hours self))
    as [| h rest] eqn:Ef.
  - exists 0. split; [reflexivity | split; [reflexivity | discriminate]].
  - assert (Hh : In h (hours.hours self) /\ in_hour (datetime.dt_time now) h = true).
    { apply filter_In. rewrite Ef. left. reflexivity. }
    destruct Hh as [Hin Hc]. unfold in_hour in Hc.
    apply andb_prop in Hc as [_ Hlt]. apply Z.ltb_lt in Hlt.
    eexists. split; [reflexivity |].
    unfold hours.sub_value, datetime.dt_sub, datetime.combine.
    cbn [datetime.dt_date datetime.dt_time]. rewrite Hd.
    split; [discriminate |]. intros _. split; [lia |].
    exists h, rest. split; [reflexivity | split; [exact Hin | lia]].
Qed.

Lemma X7_time_to_close_today_witness :
  let now := examples.at_ examples.monday 20 0 in
  hours.date examples.monday_hours = datetime.dt_date now
  /\ exists r, hours.time_to_close now examples.monday_hours VNone = Ok r /\ 0 < r.
Proof.
  cbv zeta.
  assert (Hd : hours.date examples.monday_hours
               = datetime.dt_date (examples.at_ examples.monday 20 0))
    by reflexivity.
  split; [exact Hd |].
  destruct (X7_time_to_close_today (examples.at_ examples.monday 20 0)
              examples.monday_hours Hd) as (r & Hr & _ & Hopen).
  exists r. split; [exact Hr |].
  apply Hopen. reflexivity.
Defined.

(** ** Termination and result of the search *)
Section SearchResult.

Variable _parsetime : string -> result datetime.time.
Variable raw_hours : hours.raw_config.
Variable now : datetime.datetime.

Local Abbreviation date_opens := (hours.date_opens _parsetime raw_hours now).
Local Abbreviation next_opens := (hours.next_opens _parsetime raw_hours now).
Local Abbreviation time_to_open := (hours.time_to_open _parsetime raw_hours now).
Local Abbreviation time_to_open_fuel :=
  (hours.time_to_open_fuel _parsetime raw_hours now).

Lemma next_opens_more_fuel (n : nat) :
  forall (d : datetime.date) (os : list datetime.datetime) r (m : nat),
    next_opens n d os = Some r -> (n <= m)%nat -> next_opens m d os = Some r.
Proof.
  induction n as [| n IH]; intros d os r m Hn Hm.
  - destruct os as [| o os]; [discriminate |].
    destruct m; exact Hn.
  - destruct m as [| m]; [lia |].
    destruct os as [| o os]; [| exact Hn].
    cbn [hours.next_opens] in *.
    destruct (datetime.add_day d) as [d' |]; [| exact Hn].
    destruct (date_opens d') as [os' |]; [| exact Hn].
    apply (IH d' os' r m Hn). lia.
Qed.

(** X8. The search of [time_to_open] always ends: the number of iterations
    that reaches the end of the calendar from the Hours' date is enough for
    every call, and more iterations never change the outcome. *)
Theorem X8_time_to_open_terminates (fuel : nat) (self : hours.Hours) (when : value) :
  (hours.calendar_fuel (hours.date self) <= fuel)%nat ->
  (exists r, time_to_open self when = Some r)
  /\ time_to_open_fuel fuel self when = time_to_open self when.
Proof.
  intros Hfuel. split; [apply time_to_open_total |].
  unfold hours.time_to_open, hours.time_to_open_fuel.
  destruct (hours._validate_time now self when) as [w | e]; [| reflexivity].
  destruct (hours.lab_is_open now self w) as [[|] | e]; try reflexivity.
  destruct (bind _ _) as [os | e]; [| reflexivity].
  destruct (next_opens_total _parsetime raw_hours now
              (hours.calendar_fuel (hours.date self)) (hours.date self) os)
    as [r Hr].
  { unfold hours.calendar_fuel. lia. }
  rewrite Hr, (next_opens_more_fuel _ _ _ _ fuel Hr Hfuel). reflexivity.
Qed.

Lemma date_opens_dates (d : datetime.date) (os : list datetime.datetime) :
  date_opens d = Ok os -> forall o, In o os -> datetime.dt_date o = d.
Proof.
  unfold hours.date_opens.
  destruct (hours.get_hours _parsetime raw_hours now (VDate d)) as [h |];
    [| discriminate].
  cbn [bind]. intros E o Ho. injection E as <-.
  apply in_map_iff in Ho as (hr & <- & _). reflexivity.
Qed.

(** X9. What the search returns is never empty, so [opens[0]] exists: it is
    the list of openings of a date after the starting one, within the
    calendar, every date in between having resolved to no interval, and
    every instant of the list lies on that date. *)
Theorem X9_search_returns_first_open_date (fuel : nat) :
  forall (d : datetime.date) (os : list datetime.datetime),
    next_opens fuel d [] = Some (Ok os) ->
    exists k : nat,
      (k < fuel)%nat
      /\ (forall i, 1 <= i <= Z.of_nat k -> date_opens (d + i) = Ok [])
      /\ d + Z.of_nat k + 1 <= datetime.MAXORDINAL
      /\ date_opens (d + Z.of_nat k + 1) = Ok os
      /\ os <> []
      /\ (forall o, In o os -> datetime.dt_date o = d + Z.of_nat k + 1).
Proof.
  induction fuel as [| fuel IH]; intros d os Hrun; [discriminate |].
  cbn [hours.next_opens] in Hrun. unfold datetime.add_day in Hrun.
  destruct (Z.ltb_spec datetime.MAXORDINAL (d + 1)) as [Hov | Hin]; [discriminate |].
  destruct (date_opens (d + 1)) as [os1 |] eqn:E1; [| discriminate].
  destruct os1 as [| o1 os1].
  - destruct (IH (d + 1) os Hrun) as (k & Hk & Hclosed & Hmax & Hos & Hne & Hdates).
    exists (S k). rewrite Nat2Z.inj_succ.
    replace (d + Z.succ (Z.of_nat k) + 1) with (d + 1 + Z.of_nat k + 1) by lia.
    repeat split; try assumption; [lia |].
    intros i Hi. destruct (Z.eq_dec i 1) as [-> | Hi1]; [exact E1 |].
    replace (d + i) with (d + 1 + (i - 1)) by lia. apply Hclosed. lia.
  - replace os with (o1 :: os1) in *.
    2:{ destruct fuel; cbn in Hrun; congruence. }
    exists 0%nat. cbn [Z.of_nat]. rewrite Z.add_0_r.
    repeat split; try assumption; [lia | lia | discriminate |].
    apply (date_opens_dates (d + 1)), E1.
Qed.

End SearchResult.

Lemma X8_time_to_open_terminates_witness :
  let now := examples.at_ examples.monday 10 0 in
  (hours.calendar_fuel (hours.date examples.monday_hours)
   <= hours.calendar_fuel (hours.date examples.monday_hours))%nat
  /\ exists r,
       hours.time_to_open examples.strptime_HM examples.cfg_daily now
         examples.monday_hours VNone = Some r.
Proof.
  cbv zeta. split; [apply le_n |].
  apply (X8_time_to_open_terminates examples.strptime_HM examples.cfg_daily
           (examples.at_ examples.monday 10 0) _ examples.monday_hours VNone
           (le_n _)).
Defined.

Lemma X9_search_returns_first_open_date_witness :
  let friday := examples.monday + 4 in
  let now := examples.at_ friday 22 0 in
  hours.next_opens examples.strptime_HM examples.cfg_workdays now 3 friday []
  = Some (Ok [examples.at_ (friday + 3) 9 0])
  /\ exists k : nat,
       (k < 3)%nat
       /\ hours.date_opens examples.strptime_HM examples.cfg_workdays now
            (friday + Z.of_nat k + 1)
          = Ok [examples.at_ (friday + 3) 9 0].
Proof.
  cbv zeta.
  assert (Hrun : hours.next_opens examples.strptime_HM examples.cfg_workdays
                   (examples.at_ (examples.monday + 4) 22 0) 3 (examples.monday + 4) []
                 = Some (Ok [examples.at_ (examples.monday + 4 + 3) 9 0]))
    by reflexivity.
  split; [exact Hrun |].
  destruct (X9_search_returns_first_open_date examples.strptime_HM
              examples.cfg_workdays (examples.at_ (examples.monday + 4) 22 0)
              3 (examples.monday + 4) _ Hrun) as (k & Hk & _ & _ & Hos & _).
  exists k. split; [exact Hk | exact Hos].
Defined.

(** ** Quota arithmetic *)

Lemma get_quota_other_user {C : Type} `{quota.Cursor C}
    (now : datetime.datetime) (c : C) (user : string) :
  user <> "pubstaff"%string ->
  let fetched :=
    quota.fetchone
      (quota.execute "SELECT `today`, `semester` FROM `printed` WHERE `user` = %s"
         [quota.SStr user] c) in
  let r := row_or_zero (fst fetched) in
  let semesterly := Z.max 0 (quota.SEMESTERLY_QUOTA - quota.semester r) in
  quota.get_quota now c user
  = (quota.mkUserQuota user
       (Z.max 0 (Z.min semesterly (quota.daily_quota now None - quota.today r)))
       semesterly,
     snd fetched).
Proof.
  intros Huser. cbv zeta. unfold quota.get_quota.
  destruct (String.eqb_spec user "pubstaff") as [E | _]; [contradiction |].
  destruct (quota.fetchone _) as [[r |] c']; reflexivity.
Qed.

(** X10. For pubstaff [get_quota] answers (500, 500) and leaves the cursor
    as it was.  On a cursor that records its statements, a call for
    pubstaff sends nothing, a call for any other user sends exactly the one
    SELECT with that user as its only parameter, and no call changes the
    stored counts. *)
Theorem X10_get_quota_storage_access :
  (forall (C : Type) (cursor : quota.Cursor C) (now : datetime.datetime) (c : C),
      quota.get_quota now c "pubstaff" = (quota.mkUserQuota "pubstaff" 500 500, c))
  /\ (forall (now : datetime.datetime) (c : quota.table_cursor) (user : string),
         let c' := snd (quota.get_quota now c user) in
         quota.printed c' = quota.printed c
         /\ quota.executed c'
            = if String.eqb user "pubstaff" then quota.executed c
              else quota.executed c
                   ++ [("SELECT `today`, `semester` FROM `printed` WHERE `user` = %s"%string,
                        [quota.SStr user])]).
Proof.
  split; [reflexivity |].
  intros now c user. cbv zeta. unfold quota.get_quota.
  destruct (String.eqb user "pubstaff"); split; reflexivity.
Qed.

(** X11. For a user other than pubstaff: once the semester count has
    reached [SEMESTERLY_QUOTA] both allowances are zero; once today's count
    has reached the day's quota the daily allowance is zero; and printing
    the whole daily allowance takes neither today's count beyond the day's
    quota nor the semester count beyond [SEMESTERLY_QUOTA], unless the count
    was already beyond it. *)
Theorem X11_quota_respects_caps {C : Type} `{quota.Cursor C}
    (now : datetime.datetime) (c : C) (user : string) :
  user <> "pubstaff"%string ->
  let r :=
    row_or_zero
      (fst (quota.fetchone
              (quota.execute
                 "SELECT `today`, `semester` FROM `printed` WHERE `user` = %s"
                 [quota.SStr user] c))) in
  let q := fst (quota.get_quota now c user) in
  (quota.SEMESTERLY_QUOTA <= quota.semester r ->
   quota.daily q = 0 /\ quota.semesterly q = 0)
  /\ (quota.daily_quota now None <= quota.today r -> quota.daily q = 0)
  /\ quota.today r + quota.daily q
     <= Z.max (quota.today r) (quota.daily_quota now None)
  /\ quota.semester r + quota.daily q
     <= Z.max (quota.semester r) quota.SEMESTERLY_QUOTA
  /\ quota.semester r + quota.semesterly q
     <= Z.max (quota.semester r) quota.SEMESTERLY_QUOTA.
Proof.
  intros Huser. cbv zeta.
  pose proof (get_quota_other_user now c user Huser) as G. cbv zeta in G.
  rewrite G. cbn [fst quota.daily quota.semesterly].
  repeat split; intros; lia.
Qed.

Lemma X11_quota_respects_caps_witness :
  "ckuehl"%string <> "pubstaff"%string
  /\ 3 + quota.daily (fst (quota.get_quota (examples.at_ examples.monday 10 0)
                             examples.printed_ckuehl "ckuehl"))
     <= Z.max 3 (quota.daily_quota (examples.at_ examples.monday 10 0) None).
Proof.
  assert (Hne : "ckuehl"%string <> "pubstaff"%string) by discriminate.
  split; [exact Hne |].
  pose proof (X11_quota_respects_caps (examples.at_ examples.monday 10 0)
                examples.printed_ckuehl "ckuehl" Hne) as T.
  cbv zeta in T. destruct T as (_ & _ & Hday & _ & _).
  exact Hday.
Defined.

(** X12. The daily quota is [WEEKEND_QUOTA] exactly on the dates whose
    weekday number selects [Days.Saturday] or [Days.Sunday] and
    [WEEKDAY_QUOTA] on all others, it repeats every seven days, and a call
    without argument is the call on the date of the clock. *)
Theorem X12_daily_quota_by_weekday (now : datetime.datetime) (d : datetime.date) :
  (quota.daily_quota now (Some d) = quota.WEEKEND_QUOTA
   <-> hours.Days_of_value (datetime.weekday d) = Ok hours.Saturday
       \/ hours.Days_of_value (datetime.weekday d) = Ok hours.Sunday)
  /\ (quota.daily_quota now (Some d) = quota.WEEKDAY_QUOTA
      \/ quota.daily_quota now (Some d) = quota.WEEKEND_QUOTA)
  /\ quota.daily_quota now (Some (d + 7)) = quota.daily_quota now (Some d)
  /\ quota.daily_quota now None = quota.daily_quota now (Some (datetime.dt_date now)).
Proof.
  assert (P : datetime.weekday (d + 7) = datetime.weekday d).
  { unfold datetime.weekday. replace (d + 7 + 6) with (d + 6 + 1 * 7) by lia.
    apply Z.mod_add. lia. }
  unfold quota.daily_quota. rewrite P.
  unfold datetime.weekday.
  pose proof (Z.mod_pos_bound (d + 6) 7 ltac:(lia)) as Hw.
  remember ((d + 6) mod 7) as w eqn:Ew.
  assert (Hc : w = 0 \/ w = 1 \/ w = 2 \/ w = 3 \/ w = 4 \/ w = 5 \/ w = 6) by lia.
  destruct Hc as [-> | [-> | [-> | [-> | [-> | [-> | ->]]]]]]; cbn;
    (split; [split; [intros E; try discriminate E; auto
                    | intros [E | E]; try discriminate E; reflexivity]
            | split; [auto | split; reflexivity]]).
Qed.

(** ** Building the INSERT statement *)

Lemma format_plain (p : string) :
  no_brace p = true ->
  forall q args,
    format (String.append p q) args
    = (r <- format q args ;; Ok (String.append p r)).
Proof.
  unfold no_brace. induction p as [| c p IH]; intros Hp q args.
  - cbn [String.append]. destruct (format q args); reflexivity.
  - apply andb_prop in Hp as [Hl Hr]. cbn [no_char] in Hl, Hr.
    apply andb_prop in Hl as [Hcl Hpl]. apply andb_prop in Hr as [Hcr Hpr].
    apply negb_true_iff in Hcl, Hcr.
    apply Ascii.eqb_neq in Hcl, Hcr.
    assert (Hp : no_char "{" p && no_char "}" p = true)
      by (rewrite Hpl, Hpr; reflexivity).
    specialize (IH Hp q args).
    cbn [String.append].
    transitivity (r <- format (String.append p q) args ;; Ok (String c r)).
    + destruct c as [[|] [|] [|] [|] [|] [|] [|] [|]];
        try reflexivity; congruence.
    + rewrite IH. destruct (format q args); reflexivity.
Qed.

Lemma format_field (q : string) (a : string) (args : list string) :
  format (String "{" (String "}" q)) (a :: args)
  = (r <- format q args ;; Ok (String.append a r)).
Proof. reflexivity. Qed.

Lemma format_column (column : string) :
  format "`{}`" [column] = Ok (String "`" (String.append column "`")).
Proof. reflexivity. Qed.

Lemma mapM_total {A B : Type} (f : A -> result B) (g : A -> B) (l : list A) :
  (forall a, f a = Ok (g a)) -> mapM f l = Ok (map g l).
Proof.
  intros E. induction l as [| a l IH]; [reflexivity |].
  cbn [mapM map]. rewrite E, IH. reflexivity.
Qed.

Lemma lookup_skip (pre : list string) :
  forall (vs_pre : list quota.sqlval) (fields : list string)
         (items : list quota.sqlval) (column : string),
    List.length pre = List.length vs_pre ->
    ~ In column pre ->
    quota.lookup (pre ++ fields)%list (vs_pre ++ items)%list column
    = quota.lookup fields items column.
Proof.
  induction pre as [| f pre IH]; intros vs_pre fields items column Hlen Hnotin.
  - destruct vs_pre; [reflexivity | discriminate].
  - destruct vs_pre as [| v vs_pre]; [discriminate |].
    cbn [app quota.lookup].
    destruct (String.eqb_spec f column) as [E | _].
    + exfalso. apply Hnotin. left. exact E.
    + apply IH; [cbn in Hlen; lia |].
      intros Hin. apply Hnotin. right. exact Hin.
Qed.

Lemma getattr_fields (fields : list string) :
  forall (pre : list string) (vs_pre items : list quota.sqlval),
    List.length pre = List.length vs_pre ->
    List.length fields = List.length items ->
    NoDup (pre ++ fields)%list ->
    mapM (quota.getattr (quota.mkNamedtuple (pre ++ fields)%list (vs_pre ++ items)%list))
      fields
    = Ok items.
Proof.
  induction fields as [| f fields IH]; intros pre vs_pre items Hpre Hlen Hnd.
  - destruct items; [reflexivity | discriminate].
  - destruct items as [| v items]; [discriminate |].
    cbn [mapM]. unfold quota.getattr at 1. cbn [quota._fields quota._items].
    rewrite lookup_skip; [| exact Hpre |].
    2:{ apply NoDup_remove_2 in Hnd. intros Hin. apply Hnd.
        apply in_or_app. left. exact Hin. }
    cbn [quota.lookup]. rewrite String.eqb_refl. cbn [bind].
    specialize (IH (pre ++ [f])%list (vs_pre ++ [v])%list items).
    rewrite <- !app_assoc in IH. cbn [app] in IH.
    rewrite IH; [reflexivity | | cbn in Hlen; lia | exact Hnd].
    rewrite !length_app. cbn. lia.
Qed.

(** X13. For every namedtuple with distinct field names and a template
    with two [{}] fields and no other brace, [_namedtuple_to_query] fills
    the first field with the back-quoted field names and the second with
    as many [%s], both joined by a comma and a space, leaves the rest of
    the template as it is, and returns the items of the tuple themselves,
    in field order, as the arguments. *)
Theorem X13_namedtuple_to_query_any_tuple (p m s : string) (nt : quota.namedtuple) :
  no_brace p = true -> no_brace m = true -> no_brace s = true ->
  NoDup (quota._fields nt) ->
  List.length (quota._fields nt) = List.length (quota._items nt) ->
  quota._namedtuple_to_query
    (String.append p (String "{" (String "}"
       (String.append m (String "{" (String "}" s)))))) nt
  = Ok (String.append p
          (String.append
             (join ", " (map (fun column => String "`" (String.append column "`"))
                           (quota._fields nt)))
             (String.append m
                (String.append
                   (join ", " (map (fun _ => "%s"%string) (quota._fields nt)))
                   s))),
        quota._items nt).
Proof.
  intros Hp Hm Hs Hnd Hlen. unfold quota._namedtuple_to_query.
  rewrite (mapM_total _ (fun column => String "`" (String.append column "`")))
    by (intros column; apply format_column).
  cbn [bind].
  rewrite (format_plain p Hp), format_field, (format_plain m Hm), format_field.
  assert (Es : format s [] = Ok s).
  { pose proof (format_plain s Hs EmptyString []) as F.
    assert (A : forall x, String.append x EmptyString = x)
      by (induction x as [| c x IHx]; [reflexivity | cbn; now rewrite IHx]).
    cbn [format bind] in F. rewrite !A in F. exact F. }
  rewrite Es. cbn [bind].
  destruct nt as [fields items]. cbn [quota._fields quota._items] in *.
  pose proof (getattr_fields fields [] [] items eq_refl Hlen Hnd) as G.
  cbn [app] in G. rewrite G. reflexivity.
Qed.

Lemma X13_namedtuple_to_query_any_tuple_witness :
  let nt := quota.mkNamedtuple ["user"; "pages"]%string
              [quota.SStr "ckuehl"; quota.SInt 42] in
  (no_brace "INSERT INTO jobs (" = true /\ no_brace ") VALUES (" = true
   /\ no_brace ")" = true /\ NoDup (quota._fields nt)
   /\ List.length (quota._fields nt) = List.length (quota._items nt))
  /\ quota._namedtuple_to_query "INSERT INTO jobs ({}) VALUES ({})" nt
     = Ok ("INSERT INTO jobs (`user`, `pages`) VALUES (%s, %s)"%string,
           [quota.SStr "ckuehl"; quota.SInt 42]).
Proof.
  cbv zeta.
  assert (Hnd : NoDup ["user"; "pages"]%string).
  { constructor; [| constructor; [| constructor]].
    - intros [E | []]. discriminate E.
    - intros []. }
  split; [repeat split; try reflexivity; exact Hnd |].
  apply (X13_namedtuple_to_query_any_tuple "INSERT INTO jobs (" ") VALUES (" ")"
           (quota.mkNamedtuple ["user"; "pages"]%string
              [quota.SStr "ckuehl"; quota.SInt 42])
           eq_refl eq_refl eq_refl Hnd eq_refl).
Defined.

(** ** Connection arguments *)

Lemma kw_mem_app (k : string) (kw kw' : quota.kwargs) :
  quota.kw_mem k (kw ++ kw')%list = quota.kw_mem k kw || quota.kw_mem k kw'.
Proof. unfold quota.kw_mem. apply existsb_app. Qed.

Section ConnectionProperties.

Variable conn : Type.
Variable connect : quota.kwargs -> conn.

Local Abbreviation get_connection := (quota.get_connection conn connect).

(** X14. [get_connection] always asks the driver for a dictionary cursor,
    autocommit and the utf8mb4 charset, with [anonymous], no password and
    [ocfprinting] for the arguments left out.  It adds the host
    [mysql.ocf.berkeley.edu] only when the caller passes neither
    [unix_socket] nor [host]; otherwise the caller's keyword arguments go
    to the driver unchanged.  A caller who passes one of the names that
    [get_connection] sets itself gets a TypeError and the driver is not
    called. *)
Theorem X14_get_connection_arguments
    (user password db : option quota.kwval) (kw : quota.kwargs) :
  let named :=
    [("user", match user with Some v => v | None => quota.KStr "anonymous" end);
     ("password", match password with Some v => v | None => quota.KNone end);
     ("db", match db with Some v => v | None => quota.KStr "ocfprinting" end);
     ("cursorclass", quota.KDictCursor); ("autocommit", quota.KBool true);
     ("charset", quota.KStr "utf8mb4")]%string in
  let clash :=
    existsb (fun k => quota.kw_mem k kw)
      ["user"; "password"; "db"; "cursorclass"; "autocommit"; "charset"]%string in
  (clash = true -> get_connection user password db kw = Raise TypeError)
  /\ (clash = false ->
      quota.kw_mem "unix_socket" kw = false -> quota.kw_mem "host" kw = false ->
      get_connection user password db kw
      = Ok (connect (named ++ kw
                     ++ [("host"%string, quota.KStr "mysql.ocf.berkeley.edu")])))
  /\ (clash = false ->
      quota.kw_mem "unix_socket" kw || quota.kw_mem "host" kw = true ->
      get_connection user password db kw = Ok (connect (named ++ kw))).
Proof.
  cbv zeta. unfold quota.get_connection.
  cbn [existsb fst]. rewrite !orb_false_r.
  set (clash := quota.kw_mem "user" kw || _).
  assert (Hhost : forall k,
            String.eqb "host" k = false ->
            quota.kw_mem k (quota.setdefault "host"
                              (quota.KStr "mysql.ocf.berkeley.edu") kw)
            = quota.kw_mem k kw).
  { intros k Hk. unfold quota.setdefault.
    destruct (quota.kw_mem "host" kw); [reflexivity |].
    rewrite kw_mem_app. unfold quota.kw_mem at 2. cbn [existsb fst].
    rewrite Hk. now rewrite !orb_false_r. }
  assert (Hclash :
            (let kw' := if negb (quota.kw_mem "unix_socket" kw)
                        then quota.setdefault "host"
                               (quota.KStr "mysql.ocf.berkeley.edu") kw
                        else kw in
             quota.kw_mem "user" kw'
             || (quota.kw_mem "password" kw'
                 || (quota.kw_mem "db" kw'
                     || (quota.kw_mem "cursorclass" kw'
                         || (quota.kw_mem "autocommit" kw'
                             || quota.kw_mem "charset" kw'))))) = clash).
  { cbv zeta. destruct (negb (quota.kw_mem "unix_socket" kw)); [| reflexivity].
    rewrite !Hhost by reflexivity. reflexivity. }
  cbv zeta in Hclash. rewrite Hclash.
  split; [| split].
  - intros ->. reflexivity.
  - intros -> Hsock Hh. rewrite Hsock. cbn [negb].
    unfold quota.setdefault. rewrite Hh. reflexivity.
  - intros -> Hor. destruct (quota.kw_mem "unix_socket" kw); [reflexivity |].
    cbn [negb orb] in *. unfold quota.setdefault. rewrite Hor. reflexivity.
Qed.

End ConnectionProperties.

Lemma X14_get_connection_arguments_witness :
  let connect := fun kw : quota.kwargs => kw in
  quota.kw_mem "unix_socket" [] = false
  /\ quota.get_connection quota.kwargs connect None None None []
     = Ok [("user", quota.KStr "anonymous"); ("password", quota.KNone);
           ("db", quota.KStr "ocfprinting"); ("cursorclass", quota.KDictCursor);
           ("autocommit", quota.KBool true); ("charset", quota.KStr "utf8mb4");
           ("host", quota.KStr "mysql.ocf.berkeley.edu")]%string
  /\ quota.get_connection quota.kwargs connect None None None
       [("charset"%string, quota.KStr "latin1")]
     = Raise TypeError.
Proof.
  cbv zeta. split; [reflexivity |]. split.
  - pose proof (X14_get_connection_arguments quota.kwargs (fun kw => kw)
                  None None None []) as T.
    cbv zeta in T. destruct T as (_ & Hdefault & _).
    apply Hdefault; reflexivity.
  - pose proof (X14_get_connection_arguments quota.kwargs (fun kw => kw)
                  None None None [("charset"%string, quota.KStr "latin1")]) as T.
    cbv zeta in T. destruct T as (Hclash & _ & _).
    apply Hclash. reflexivity.
Defined.

(** ** Calls without [when] and holidays without hours *)
Section WithoutWhen.

Variable _parsetime : string -> result datetime.time.
Variable raw_hours : hours.raw_config.
Variable now : datetime.datetime.

Local Abbreviation get_hours := (hours.get_hours _parsetime raw_hours now).
Local Abbreviation time_to_open := (hours.time_to_open _parsetime raw_hours now).

(** X15. For an Hours with at least one interval, [time_to_open] without
    [when] never returns a duration: on the clock's date it raises
    ValueError, on any other date TypeError. *)
Theorem X15_time_to_open_without_when_raises (self : hours.Hours) :
  hours.hours self <> [] ->
  time_to_open self VNone
  = Some (Raise (if hours.date self =? datetime.dt_date now
                 then ValueError else TypeError)).
Proof.
  intros Hne. destruct (Z.eqb_spec (hours.date self) (datetime.dt_date now)) as [E | N].
  - apply time_to_open_same_date, E.
  - unfold hours.time_to_open, hours.time_to_open_fuel.
    cbn [hours._validate_time truthy negb]. unfold hours.lab_is_open.
    rewrite (validate_other_date now self now) by congruence.
    cbn [bind]. rewrite (anyM_None _ Hne). reflexivity.
Qed.

Lemma find_loaded_holiday (d : datetime.date) (raws : list hours.raw_holiday) :
  forall holidays,
    mapM (hours.load_holiday _parsetime) raws = Ok holidays ->
    find (covers d) holidays
    = match find (fun data => (hours.rh_start data <=? d) && (d <=? hours.rh_end data))
              raws with
      | Some data =>
          match hours.load_holiday _parsetime data with
          | Ok h => Some h
          | Raise _ => None
          end
      | None => None
      end.
Proof.
  induction raws as [| data raws IH]; intros holidays Hload.
  - injection Hload as <-. reflexivity.
  - cbn [mapM] in Hload.
    destruct (hours.load_holiday _parsetime data) as [h |] eqn:Eh; [| discriminate].
    destruct (mapM (hours.load_holiday _parsetime) raws) as [hs |]; [| discriminate].
    cbn [bind] in Hload. injection Hload as <-. cbn [find].
    assert (Ec : covers d h
                 = (hours.rh_start data <=? d) && (d <=? hours.rh_end data)).
    { unfold hours.load_holiday in Eh.
      destruct (match hours.rh_hours data with
                | Some (h0 :: hs0) => mapM (hours.parse_hour _parsetime) (h0 :: hs0)
                | _ => Ok []
                end); [| discriminate].
      cbn [bind] in Eh. injection Eh as <-. reflexivity. }
    rewrite Ec.
    destruct ((hours.rh_start data <=? d) && (d <=? hours.rh_end data)).
    + rewrite Eh. reflexivity.
    + apply IH. reflexivity.
Qed.

(** X16. A holiday of the configuration whose [hours] is null or an empty
    list closes the lab on every date for which it is the first covering
    holiday, whatever the weekday's template entry: [get_hours] returns
    an Hours labelled with the holiday's reason and without intervals, for
    which [closed_all_day] is true, [lab_is_open] without [when] is false
    and [time_to_close] without [when] is zero. *)
Theorem X16_holiday_without_hours_closes (d : datetime.date)
    (regular : hours.week) (holidays : list hours.holiday_entry)
    (wd : hours.Days) (data : hours.raw_holiday) :
  hours._generate_regular_hours _parsetime raw_hours = Ok (regular, holidays) ->
  hours.Days_of_value (datetime.weekday d) = Ok wd ->
  regular wd <> None ->
  find (fun data => (hours.rh_start data <=? d) && (d <=? hours.rh_end data))
    (hours.raw_holidays raw_hours) = Some data ->
  hours.rh_hours data = None \/ hours.rh_hours data = Some [] ->
  get_hours (VDate d)
  = Ok (hours.mkHours d (hours.strftime_A d) (Some (hours.rh_reason data)) [])
  /\ hours.closed_all_day
       (hours.mkHours d (hours.strftime_A d) (Some (hours.rh_reason data)) []) = true
  /\ hours.lab_is_open now
       (hours.mkHours d (hours.strftime_A d) (Some (hours.rh_reason data)) []) VNone
     = Ok false
  /\ hours.time_to_close now
       (hours.mkHours d (hours.strftime_A d) (Some (hours.rh_reason data)) []) VNone
     = Ok 0.
Proof.
  intros Hgen Hwd Hsome Hfind Hnull.
  split; [| repeat split; reflexivity].
  rewrite (get_hours_loaded _parsetime raw_hours now d regular holidays wd Hgen Hwd).
  destruct (regular wd) as [dflt |]; [| congruence].
  assert (Hhol : mapM (hours.load_holiday _parsetime) (hours.raw_holidays raw_hours)
                 = Ok holidays).
  { unfold hours._generate_regular_hours in Hgen.
    destruct (hours.load_week _parsetime (hours.raw_week raw_hours) hours.week_empty);
      [| discriminate].
    cbn [bind] in Hgen.
    destruct (mapM (hours.load_holiday _parsetime) (hours.raw_holidays raw_hours));
      [| discriminate].
    cbn [bind] in Hgen. injection Hgen as _ <-. reflexivity. }
  rewrite (find_loaded_holiday d _ _ Hhol), Hfind.
  unfold hours.load_holiday. destruct Hnull as [-> | ->]; reflexivity.
Qed.

End WithoutWhen.

Lemma X15_time_to_open_without_when_raises_witness :
  hours.hours examples.monday_hours <> []
  /\ hours.time_to_open examples.strptime_HM examples.cfg_daily
       (examples.at_ (examples.monday - 1) 22 0) examples.monday_hours VNone
     = Some (Raise TypeError).
Proof.
  assert (Hne : hours.hours examples.monday_hours <> []) by discriminate.
  split; [exact Hne |].
  apply (X15_time_to_open_without_when_raises examples.strptime_HM examples.cfg_daily
           (examples.at_ (examples.monday - 1) 22 0) examples.monday_hours Hne).
Defined.

Lemma X16_holiday_without_hours_closes_witness :
  let now := examples.at_ examples.monday 10 0 in
  let christmas := datetime.ymd 2015 12 25 in
  let data := hours.mkRawHoliday christmas christmas "Christmas" None in
  (find (fun data => (hours.rh_start data <=? christmas)
                     && (christmas <=? hours.rh_end data))
     (hours.raw_holidays examples.cfg_daily) = Some data
   /\ hours.rh_hours data = None)
  /\ hours.get_hours examples.strptime_HM examples.cfg_daily now (VDate christmas)
     = Ok (hours.mkHours christmas "Friday" (Some "Christmas"%string) []).
Proof.
  cbv zeta.
  destruct (hours._generate_regular_hours examples.strptime_HM examples.cfg_daily)
    as [[regular holidays] |] eqn:Hgen; [| vm_compute in Hgen; discriminate].
  assert (Hsome : regular hours.Friday <> None).
  { pose proof Hgen as Hc. vm_compute in Hc. injection Hc as Hr _.
    rewrite <- Hr. discriminate. }
  split; [split; reflexivity |].
  apply (X16_holiday_without_hours_closes examples.strptime_HM examples.cfg_daily
           (examples.at_ examples.monday 10 0) (datetime.ymd 2015 12 25)
           regular holidays hours.Friday
           (hours.mkRawHoliday (datetime.ymd 2015 12 25) (datetime.ymd 2015 12 25)
              "Christmas" None)
           Hgen eq_refl Hsome eq_refl (or_introl eq_refl)).
Defined.
